(** * tartufo: the command-line entry point [tartufo.cli.main]

    A shallow embedding of [src/tartufo/cli.py] and the properties of its
    request validation, path-pattern compilation, scanner dispatch and
    exit status.

    [main] is effectful: it writes to the standard streams, calls into the
    [config], [scanner] and [util] modules and into [re.compile], and it
    leaves through [ctx.exit] or through an exception nobody catches.  The
    embedding records every such effect as an event of a trace, in program
    order, and takes the behaviour of the collaborators that live outside
    [cli.py] as an environment. *)

From Stdlib Require Import Ascii.
From stdpp Require Import base option list strings gmap sets pretty.

Open Scope string_scope.
Open Scope Z_scope.
Open Scope list_scope.

(** ** Python values and strings *)

Module Py.

(** The values the scanner's result mapping holds. *)
Inductive Val :=
  | VNone
  | VBool (b : bool)
  | VInt (z : Z)
  | VStr (s : string).

(** Truth value testing, as [if v:] performs it. *)
Definition truthy (v : Val) : bool :=
  match v with
  | VNone => false
  | VBool b => b
  | VInt z => negb (z =? 0)
  | VStr s => negb (String.eqb s "")
  end.

(** [str(v)], as ["{}".format(v)] renders it. *)
Definition str (v : Val) : string :=
  match v with
  | VNone => "None"
  | VBool true => "True"
  | VBool false => "False"
  | VInt z => pretty z
  | VStr s => s
  end.

(** Truth value of an optional string ([None] or a [str]). *)
Definition truthy_str (o : option string) : bool :=
  match o with
  | None => false
  | Some s => negb (String.eqb s "")
  end.

(** The built-in [any] over already evaluated truth values. *)
Definition any (bs : list bool) : bool := existsb id bs.

Definition LF : Ascii.ascii := Ascii.ascii_of_nat 10.

(** [str.isspace] on one character.  Characters are code points below 256:
    TAB, LF, VT, FF, CR, the separators 0x1c-0x1f, SPACE, NEL and NBSP. *)
Definition isspace (c : Ascii.ascii) : bool :=
  let n := Ascii.N_of_ascii c in
  ((9 <=? n) && (n <=? 13) || (28 <=? n) && (n <=? 32)
   || (n =? 133) || (n =? 160))%N.

(** [s[:-1]]: all characters but the last; the empty string stays empty. *)
Fixpoint drop_last (s : string) : string :=
  match s with
  | EmptyString => EmptyString
  | String c EmptyString => EmptyString
  | String c s' => String c (drop_last s')
  end.

(** [s.lstrip()]: leading whitespace removed. *)
Fixpoint lstrip (s : string) : string :=
  match s with
  | EmptyString => EmptyString
  | String c s' => if isspace c then lstrip s' else s
  end.

(** [s.startswith(p)]. *)
Definition startswith (p s : string) : bool := String.prefix p s.

(** Truth value of a [str]. *)
Definition nonempty (s : string) : bool := negb (String.eqb s "").

(** Iterating over a text file: the lines of [s], each with its terminating
    LF, the last one without it when the text does not end in LF. *)
Fixpoint readlines_from (cur s : string) : list string :=
  match s with
  | EmptyString => if nonempty cur then [cur] else []
  | String c s' =>
      if Ascii.eqb c LF then (cur +:+ String c EmptyString) :: readlines_from "" s'
      else readlines_from (cur +:+ String c EmptyString) s'
  end.

Definition readlines (s : string) : list string := readlines_from "" s.

End Py.

(** ** Data model *)

(** An open text file, as [click.File("r")] hands it over: its name and
    the text it yields, decoded and with line ends already translated to
    LF, as text mode does. *)
Record File := { file_name : string; file_text : string }.

Definition lines (f : File) : list string := Py.readlines (file_text f).

(** A compiled regular expression, identified by its source text
    ([re.compile(p).pattern == p]). *)
Record Pattern := Compiled { pattern : string }.

#[global] Instance Pattern_eq_dec : EqDecision Pattern.
Proof. solve_decision. Defined.

(** The options [click] parses, one field per key of [kwargs]. *)
Record Kwargs := {
  json : bool;
  rules : list File;
  default_regexes : bool;
  entropy : bool;
  regex : bool;
  since_commit : option string;
  max_depth : Z;
  branch : option string;
  include_paths : option File;
  exclude_paths : option File;
  repo_path : option string;
  cleanup : bool;
  pre_commit : bool;
  git_url : option string;
}.

(** The [click] context, as far as [main] looks at it. *)
Record Context := { dir : list string }.

(** Exceptions, by what [except ValueError] tells apart: an instance of
    [ValueError] (subclasses included) or of any other class; [re.error]
    derives from [Exception] directly. *)
Inductive Exn :=
  | ValueError (msg : string)
  | OtherException (cls msg : string).

Definition re_error_exn (msg : string) : Exn := OtherException "re.error" msg.

(** Positional and keyword arguments of [scanner.find_staged]. *)
Record StagedArgs := {
  st_repo_path : option string;
  st_json : bool;
  st_regex : bool;
  st_entropy : bool;
  st_custom_regexes : gmap string Pattern;
  st_suppress_output : bool;
  st_path_inclusions : list Pattern;
  st_path_exclusions : list Pattern;
}.

(** Positional and keyword arguments of [scanner.find_strings]. *)
Record StringsArgs := {
  fs_git_url : option string;
  fs_since_commit : option string;
  fs_max_depth : Z;
  fs_json : bool;
  fs_regex : bool;
  fs_entropy : bool;
  fs_custom_regexes : gmap string Pattern;
  fs_suppress_output : bool;
  fs_branch : option string;
  fs_repo_path : option string;
  fs_path_inclusions : list Pattern;
  fs_path_exclusions : list Pattern;
}.

(** What [click.echo] is given. *)
Inductive Printable :=
  | PAttrs (names : list string)
  | PKwargs (k : Kwargs).

(** The observable steps of a run, in program order.  A call into another
    module is recorded together with what it returned or raised. *)
Inductive Event :=
  | Echo (o : Printable)
  | Err (msg : string)
  | Printed (msg : string)
  | ConfigureRegexes (r : Exn + gmap string Pattern)
  | ReCompile (p : string) (r : Exn + Pattern)
  | FindStaged (a : StagedArgs) (r : Exn + gmap string Py.Val)
  | FindStrings (a : StringsArgs) (r : Exn + gmap string Py.Val)
  | CleanOutputs (o : gmap string Py.Val) (r : Exn + unit).

(** The order in which a [set] yields its elements.  Python leaves it
    open: it varies with the hash seed and with the way the set was filled.
    [iterate l] is what a set filled with the elements of [l], in that
    order, yields; all that is known is that every element comes once. *)
Record SetIteration := {
  iterate : list string -> list string;
  iterate_NoDup : forall l, NoDup (iterate l);
  iterate_elem : forall l x, x ∈ iterate l <-> x ∈ l;
}.

(** What lies outside [cli.py]: the default rule table
    [truffleHogRegexes.regexChecks.regexes], [config], the iteration order
    of sets, [re.compile], [scanner] and [util].  Each call returns a value
    or raises.  [compile_error p] is the exception [re.compile(p)] raises,
    if it raises: an [re.error] for a malformed pattern, but also an
    [OverflowError] or a [RecursionError]. *)
Record Env := {
  regexes : gmap string Pattern;
  configure_regexes_from_args :
    Kwargs -> gmap string Pattern -> Exn + gmap string Pattern;
  set_iteration : SetIteration;
  compile_error : string -> option Exn;
  find_staged : StagedArgs -> Exn + gmap string Py.Val;
  find_strings : StringsArgs -> Exn + gmap string Py.Val;
  clean_outputs : gmap string Py.Val -> Exn + unit;
}.

(** ** The monad of [main]: a trace, then a value or the way out *)

Inductive Stop :=
  | Exit (code : Z)
  | Uncaught (e : Exn).

Definition M (A : Type) : Type := list Event * (Stop + A).

Definition ret {A} (a : A) : M A := ([], inr a).

(** [m], after the events [tr] already happened. *)
Definition prepend {A} (tr : list Event) (m : M A) : M A :=
  match m with
  | (tr', r) => (tr ++ tr', r)
  end.

Definition bind {A B} (m : M A) (f : A -> M B) : M B :=
  match m with
  | (tr, inl s) => (tr, inl s)
  | (tr, inr a) => prepend tr (f a)
  end.

Declare Scope cli_scope.
Delimit Scope cli_scope with cli.
Notation "x <- m ;; k" := (bind m (fun x => k))
  (at level 100, m at next level, right associativity) : cli_scope.
Notation "m ;; k" := (bind m (fun _ => k))
  (at level 100, right associativity) : cli_scope.
Open Scope cli_scope.

Definition emit (e : Event) : M unit := ([e], inr tt).

(** A call into a collaborator: logged, and its exception propagates. *)
Definition call {A} (ev : Exn + A -> Event) (r : Exn + A) : M A :=
  ([ev r], match r with inl e => inl (Uncaught e) | inr a => inr a end).

(** [ctx.exit(code)] raises; nothing after it runs. *)
Definition ctx_exit {A} (code : Z) : M A := ([], inl (Exit code)).

(** [try: m  except ValueError as exc: h(str(exc))]. *)
Definition try_except_ValueError {A} (m : M A) (h : string -> M A) : M A :=
  match m with
  | (tr, inl (Uncaught (ValueError msg))) => prepend tr (h msg)
  | _ => m
  end.

(** [if b: m]. *)
Definition when (b : bool) (m : M unit) : M unit := if b then m else ret tt.

(** [for x in xs: acc = body(acc, x)]. *)
Fixpoint for_each {A B} (body : B -> A -> M B) (xs : list A) (acc : B) : M B :=
  match xs with
  | [] => ret acc
  | x :: xs' => acc' <- body acc x ;; for_each body xs' acc'
  end.

Definition echo (o : Printable) : M unit := emit (Echo o).
Definition err (msg : string) : M unit := emit (Err msg).
Definition print (msg : string) : M unit := emit (Printed msg).

Definition re_compile (env : Env) (p : string) : M Pattern :=
  call (ReCompile p)
       (match compile_error env p with
        | Some e => inl e
        | None => inr (Compiled p)
        end).

(** ** [main] *)

(** The pattern texts of a pattern file, as the loop visits them:
    [set(l[:-1].lstrip() for l in file)], each text once, in the order the
    set yields them. *)
Definition pattern_set (env : Env) (f : File) : list string :=
  iterate (set_iteration env)
          ((fun l => Py.lstrip (Py.drop_last l)) <$> lines f).

(** The test of lines 86 and 90. *)
Definition kept (p : string) : bool :=
  Py.nonempty p && negb (Py.startswith "#" p).

(** Lines 86-87 and 90-91: the body of the loop, on the list built so far. *)
Definition compile_pattern (env : Env) (acc : list Pattern) (p : string)
    : M (list Pattern) :=
  if kept p then c <- re_compile env p ;; ret (acc ++ [c]) else ret acc.

(** Lines 84-87 and 88-91: the loop that fills [path_inclusions], and
    likewise [path_exclusions]. *)
Definition compile_paths (env : Env) (file : option File) : M (list Pattern) :=
  match file with
  | None => ret []
  | Some f => for_each (compile_pattern env) (pattern_set env f) []
  end.

(** The arguments of the call at lines 94-103. *)
Definition staged_args (kwargs : Kwargs) (rules_regexes : gmap string Pattern)
    (path_inclusions path_exclusions : list Pattern) : StagedArgs :=
  {| st_repo_path := repo_path kwargs;
     st_json := json kwargs;
     st_regex := regex kwargs;
     st_entropy := entropy kwargs;
     st_custom_regexes := rules_regexes;
     st_suppress_output := false;
     st_path_inclusions := path_inclusions;
     st_path_exclusions := path_exclusions |}.

(** The arguments of the call at lines 105-118. *)
Definition strings_args (kwargs : Kwargs) (rules_regexes : gmap string Pattern)
    (path_inclusions path_exclusions : list Pattern) : StringsArgs :=
  {| fs_git_url := git_url kwargs;
     fs_since_commit := since_commit kwargs;
     fs_max_depth := max_depth kwargs;
     fs_json := json kwargs;
     fs_regex := regex kwargs;
     fs_entropy := entropy kwargs;
     fs_custom_regexes := rules_regexes;
     fs_suppress_output := false;
     fs_branch := branch kwargs;
     fs_repo_path := repo_path kwargs;
     fs_path_inclusions := path_inclusions;
     fs_path_exclusions := path_exclusions |}.

Definition main (env : Env) (ctx : Context) (kwargs : Kwargs) : M Empty_set :=
  echo (PAttrs (dir ctx)) ;;
  echo (PKwargs kwargs) ;;
  when (negb (Py.any [entropy kwargs; regex kwargs]))
       (err "No analysis requested." ;; ctx_exit 1) ;;
  when (negb (Py.any [pre_commit kwargs; Py.truthy_str (repo_path kwargs);
                      Py.truthy_str (git_url kwargs)]))
       (err "You must specify one of --pre-commit, --repo-path, or git_url." ;;
        ctx_exit 1) ;;
  rules_regexes <-
    try_except_ValueError
      (call ConfigureRegexes
            (configure_regexes_from_args env kwargs (regexes env)))
      (fun exc => err exc ;; ctx_exit 1) ;;
  when (regex kwargs && bool_decide (rules_regexes = ∅))
       (err "Regex checks requested, but no regexes found." ;; ctx_exit 1) ;;
  path_inclusions <- compile_paths env (include_paths kwargs) ;;
  path_exclusions <- compile_paths env (exclude_paths kwargs) ;;
  output <-
    (if pre_commit kwargs then
       let a := staged_args kwargs rules_regexes path_inclusions path_exclusions in
       call (FindStaged a) (find_staged env a)
     else
       let a := strings_args kwargs rules_regexes path_inclusions path_exclusions in
       call (FindStrings a) (find_strings env a)) ;;
  (if cleanup kwargs then
     call (CleanOutputs output) (clean_outputs env output)
   else
     let issues_path := default Py.VNone (output !! "issues_path") in
     when (Py.truthy issues_path)
          (print ("Results have been saved in " +:+ Py.str issues_path))) ;;
  when (Py.truthy (default (Py.VBool false) (output !! "found_issues")))
       (ctx_exit 1) ;;
  ctx_exit 0.

(** ** Reading a run *)

(** How the run ended: with the status [main] gave to [ctx.exit], or with
    an exception leaving [main].  In the second case [main] sets no status;
    the one the process ends with is up to the exception and to whatever
    catches it outside [main]. *)
Definition outcome (m : M Empty_set) : Stop :=
  match m.2 with
  | inl s => s
  | inr x => match x with end
  end.

Definition is_find_staged (e : Event) : bool :=
  match e with FindStaged _ _ => true | _ => false end.

Definition is_find_strings (e : Event) : bool :=
  match e with FindStrings _ _ => true | _ => false end.

(** A scanner entry point was entered. *)
Definition is_scan (e : Event) : bool := is_find_staged e || is_find_strings e.

(** A validation error was reported on standard error. *)
Definition is_err (e : Event) : bool :=
  match e with Err _ => true | _ => false end.

(** Something was written with [click.echo]. *)
Definition is_echo (e : Event) : bool :=
  match e with Echo _ => true | _ => false end.

(** Something outside [cli.py] was called. *)
Definition is_call (e : Event) : bool :=
  match e with
  | Echo _ | Err _ | Printed _ => false
  | _ => true
  end.

(** A rule or path pattern was refused: the rules configuration or a
    [re.compile] raised. *)
Definition is_compile_failure (e : Event) : bool :=
  match e with
  | ConfigureRegexes (inl _) | ReCompile _ (inl _) => true
  | _ => false
  end.

(** A call raised and nothing in [main] catches the exception: only a
    [ValueError] of the rules configuration is caught. *)
Definition is_uncaught_raise (e : Event) : bool :=
  match e with
  | ConfigureRegexes (inl (OtherException _ _))
  | ReCompile _ (inl _)
  | FindStaged _ (inl _)
  | FindStrings _ (inl _)
  | CleanOutputs _ (inl _) => true
  | _ => false
  end.

(** The clean-up of line 121 raised. *)
Definition is_clean_failure (e : Event) : bool :=
  match e with CleanOutputs _ (inl _) => true | _ => false end.

(** The pattern lists a scanner call was given. *)
Definition scan_patterns (e : Event) : option (list Pattern * list Pattern) :=
  match e with
  | FindStaged a _ => Some (st_path_inclusions a, st_path_exclusions a)
  | FindStrings a _ => Some (fs_path_inclusions a, fs_path_exclusions a)
  | _ => None
  end.

(** The mapping a scanner call returned. *)
Definition scan_output (e : Event) : option (gmap string Py.Val) :=
  match e with
  | FindStaged _ (inr d) | FindStrings _ (inr d) => Some d
  | _ => None
  end.

(** The truth value of [output.get("found_issues", False)]. *)
Definition found_issues (d : gmap string Py.Val) : bool :=
  Py.truthy (default (Py.VBool false) (d !! "found_issues")).

(** Some scanner call returned a mapping whose [found_issues] is true. *)
Definition issues_found (tr : list Event) : bool :=
  existsb (fun e => match scan_output e with
                    | Some d => found_issues d
                    | None => false
                    end) tr.

(** The pattern text line [l] of a pattern file stands for. *)
Definition pattern_of_line (l : string) : string := Py.lstrip (Py.drop_last l).

Definition patterns_of (env : Env) (file : option File) : list string :=
  match file with
  | None => []
  | Some f => pattern_set env f
  end.

(** A [re.compile] call. *)
Definition is_recompile (e : Event) : bool :=
  match e with ReCompile _ _ => true | _ => false end.

(** The two pattern options, [--include-paths] and [--exclude-paths]. *)
Inductive PathOption := IncludePaths | ExcludePaths.

(** The file an option names. *)
Definition path_file (o : PathOption) (k : Kwargs) : option File :=
  match o with
  | IncludePaths => include_paths k
  | ExcludePaths => exclude_paths k
  end.

(** The list a scanner call received for an option. *)
Definition path_patterns (o : PathOption) (e : Event) : option (list Pattern) :=
  match scan_patterns e with
  | Some (incl, excl) =>
      Some match o with IncludePaths => incl | ExcludePaths => excl end
  | None => None
  end.

(** The rules configuration of lines 70-73 was called. *)
Definition is_configure (e : Event) : bool :=
  match e with ConfigureRegexes _ => true | _ => false end.

(** The clean-up of line 121 was called. *)
Definition is_clean (e : Event) : bool :=
  match e with CleanOutputs _ _ => true | _ => false end.

(** Line 125 printed. *)
Definition is_printed (e : Event) : bool :=
  match e with Printed _ => true | _ => false end.

(** Every kept text of the file is accepted by [re.compile]; vacuous when
    the option is absent. *)
Definition compiles (env : Env) (file : option File) : Prop :=
  forall f l, file = Some f -> l ∈ lines f ->
    kept (pattern_of_line l) = true ->
    compile_error env (pattern_of_line l) = None.

(** [ps] holds the kept texts of the lines of the file, compiled, each
    once, in some order; nothing when the option is absent. *)
Definition compiled_from (file : option File) (ps : list Pattern) : Prop :=
  NoDup ps /\
  forall c, c ∈ ps <->
    exists f l, file = Some f /\ l ∈ lines f /\
                kept (pattern_of_line l) = true /\
                pattern c = pattern_of_line l.

(** ** The paths through [main] *)

(** The two [click.echo] calls every run starts with. *)
Definition banner (ctx : Context) (k : Kwargs) : list Event :=
  [Echo (PAttrs (dir ctx)); Echo (PKwargs k)].

Definition detectors (k : Kwargs) : bool := Py.any [entropy k; regex k].

Definition sources (k : Kwargs) : bool :=
  Py.any [pre_commit k; Py.truthy_str (repo_path k); Py.truthy_str (git_url k)].

(** The call of lines 70-73 and what it gives. *)
Definition configured (env : Env) (k : Kwargs) : Exn + gmap string Pattern :=
  configure_regexes_from_args env k (regexes env).

(** The scanner call of lines 93-118, as an event. *)
Definition scan_event (env : Env) (k : Kwargs) (rules : gmap string Pattern)
    (incl excl : list Pattern) : Event :=
  if pre_commit k
  then FindStaged (staged_args k rules incl excl)
                  (find_staged env (staged_args k rules incl excl))
  else FindStrings (strings_args k rules incl excl)
                   (find_strings env (strings_args k rules incl excl)).

Definition scan_result (env : Env) (k : Kwargs) (rules : gmap string Pattern)
    (incl excl : list Pattern) : Exn + gmap string Py.Val :=
  if pre_commit k
  then find_staged env (staged_args k rules incl excl)
  else find_strings env (strings_args k rules incl excl).

(** Lines 123-125. *)
Definition report (d : gmap string Py.Val) : list Event :=
  if Py.truthy (default Py.VNone (d !! "issues_path"))
  then [Printed ("Results have been saved in "
                 +:+ Py.str (default Py.VNone (d !! "issues_path")))]
  else [].

(** Lines 120-129, from the scanner's answer on. *)
Inductive Finish (env : Env) (k : Kwargs) :
    Exn + gmap string Py.Val → list Event → Stop → Prop :=
  | FinishScanRaised e :
      Finish env k (inl e) [] (Uncaught e)
  | FinishCleanRaised d e :
      cleanup k = true → clean_outputs env d = inl e →
      Finish env k (inr d) [CleanOutputs d (inl e)] (Uncaught e)
  | FinishCleaned d :
      cleanup k = true → clean_outputs env d = inr tt →
      Finish env k (inr d) [CleanOutputs d (inr tt)]
             (Exit (if found_issues d then 1 else 0))
  | FinishReported d :
      cleanup k = false →
      Finish env k (inr d) (report d) (Exit (if found_issues d then 1 else 0)).

(** One constructor per path through [main], from line 61 to the way out. *)
Inductive Run (env : Env) (ctx : Context) (k : Kwargs) :
    list Event → Stop → Prop :=
  | RunNoAnalysis :
      detectors k = false →
      Run env ctx k (banner ctx k ++ [Err "No analysis requested."]) (Exit 1)
  | RunNoSource :
      detectors k = true → sources k = false →
      Run env ctx k
          (banner ctx k ++
           [Err "You must specify one of --pre-commit, --repo-path, or git_url."])
          (Exit 1)
  | RunRulesError msg :
      detectors k = true → sources k = true →
      configured env k = inl (ValueError msg) →
      Run env ctx k
          (banner ctx k ++ [ConfigureRegexes (inl (ValueError msg)); Err msg])
          (Exit 1)
  | RunRulesRaised cls msg :
      detectors k = true → sources k = true →
      configured env k = inl (OtherException cls msg) →
      Run env ctx k
          (banner ctx k ++ [ConfigureRegexes (inl (OtherException cls msg))])
          (Uncaught (OtherException cls msg))
  | RunNoRegexes :
      detectors k = true → sources k = true →
      configured env k = inr ∅ → regex k = true →
      Run env ctx k
          (banner ctx k ++
           [ConfigureRegexes (inr ∅);
            Err "Regex checks requested, but no regexes found."])
          (Exit 1)
  | RunIncludeRaised rules tri s :
      detectors k = true → sources k = true →
      configured env k = inr rules → regex k && bool_decide (rules = ∅) = false →
      compile_paths env (include_paths k) = (tri, inl s) →
      Run env ctx k (banner ctx k ++ ConfigureRegexes (inr rules) :: tri) s
  | RunExcludeRaised rules tri incl tre s :
      detectors k = true → sources k = true →
      configured env k = inr rules → regex k && bool_decide (rules = ∅) = false →
      compile_paths env (include_paths k) = (tri, inr incl) →
      compile_paths env (exclude_paths k) = (tre, inl s) →
      Run env ctx k
          (banner ctx k ++ ConfigureRegexes (inr rules) :: tri ++ tre) s
  | RunScan rules tri incl tre excl tl s :
      detectors k = true → sources k = true →
      configured env k = inr rules → regex k && bool_decide (rules = ∅) = false →
      compile_paths env (include_paths k) = (tri, inr incl) →
      compile_paths env (exclude_paths k) = (tre, inr excl) →
      Finish env k (scan_result env k rules incl excl) tl s →
      Run env ctx k
          (banner ctx k ++ ConfigureRegexes (inr rules) :: tri ++ tre
           ++ scan_event env k rules incl excl :: tl) s.

(** A validation error of lines 63-79: no detector enabled, no source
    given, a rules configuration that failed with a [ValueError], or regex
    checks requested with an empty rule set. *)
Definition validation_error (env : Env) (k : Kwargs) : bool :=
  negb (Py.any [entropy k; regex k])
  || negb (Py.any [pre_commit k; Py.truthy_str (repo_path k);
                   Py.truthy_str (git_url k)])
  || match configure_regexes_from_args env k (regexes env) with
     | inl (ValueError _) => true
     | inl (OtherException _ _) => false
     | inr rules => regex k && bool_decide (rules = ∅)
     end.

(** ** Sample runs *)

Module Sample.

Definition aws_rule : string := "AKIA[0-9A-Z]{16}".

(** One iteration order among those Python may take. *)
Definition order : SetIteration.
Proof.
  refine {| iterate := fun l => elements (list_to_set l : gset string) |}.
  - intros l. apply NoDup_elements.
  - intros l x. by rewrite elem_of_elements, elem_of_list_to_set.
Defined.

(** Collaborators that accept everything: the default rules come back
    unchanged, only the text of an opening parenthesis is refused by
    [re.compile], with an [re.error], the staged scan finds nothing and the
    history scan reports a finding. *)
Definition env : Env :=
  {| regexes := {[ "AWS API Key" := Compiled aws_rule ]};
     configure_regexes_from_args := fun _ defaults => inr defaults;
     set_iteration := order;
     compile_error := fun p =>
       if String.eqb p "("
       then Some (re_error_exn
                    "missing ), unterminated subpattern at position 0")
       else None;
     find_staged := fun _ => inr {[ "found_issues" := Py.VBool false ]};
     find_strings := fun _ =>
       inr {[ "found_issues" := Py.VBool true;
              "issues_path" := Py.VStr "/tmp/tartufo" ]};
     clean_outputs := fun _ => inr tt |}.

(** The same, with a rules configuration that yields no rule at all. *)
Definition env_no_rules : Env :=
  {| regexes := ∅;
     configure_regexes_from_args := fun _ defaults => inr defaults;
     set_iteration := order;
     compile_error := compile_error env;
     find_staged := find_staged env;
     find_strings := find_strings env;
     clean_outputs := clean_outputs env |}.

(** The same, with a history scan whose result has no [found_issues]. *)
Definition env_no_flag : Env :=
  {| regexes := regexes env;
     configure_regexes_from_args := configure_regexes_from_args env;
     set_iteration := order;
     compile_error := compile_error env;
     find_staged := find_staged env;
     find_strings := fun _ => inr {[ "issues_path" := Py.VStr "/tmp/tartufo" ]};
     clean_outputs := clean_outputs env |}.

Definition ctx : Context := {| dir := ["exit"; "params"] |}.

(** [tartufo https://example.org/repo.git] *)
Definition history : Kwargs :=
  {| json := false; rules := []; default_regexes := true;
     entropy := true; regex := true;
     since_commit := None; max_depth := 1000000; branch := None;
     include_paths := None; exclude_paths := None;
     repo_path := None; cleanup := false; pre_commit := false;
     git_url := Some "https://example.org/repo.git" |}.

(** [tartufo --no-entropy --no-regex https://example.org/repo.git] *)
Definition no_detector : Kwargs :=
  {| json := false; rules := []; default_regexes := true;
     entropy := false; regex := false;
     since_commit := None; max_depth := 1000000; branch := None;
     include_paths := None; exclude_paths := None;
     repo_path := None; cleanup := false; pre_commit := false;
     git_url := Some "https://example.org/repo.git" |}.

(** [tartufo] *)
Definition no_source : Kwargs :=
  {| json := false; rules := []; default_regexes := true;
     entropy := true; regex := true;
     since_commit := None; max_depth := 1000000; branch := None;
     include_paths := None; exclude_paths := None;
     repo_path := None; cleanup := false; pre_commit := false;
     git_url := None |}.

(** [tartufo --pre-commit], no URL and no path. *)
Definition staged : Kwargs :=
  {| json := false; rules := []; default_regexes := true;
     entropy := true; regex := true;
     since_commit := None; max_depth := 1000000; branch := None;
     include_paths := None; exclude_paths := None;
     repo_path := None; cleanup := false; pre_commit := true;
     git_url := None |}.

(** [tartufo -i FILE URL] with the given text in [FILE]. *)
Definition with_include (text : string) : Kwargs :=
  {| json := false; rules := []; default_regexes := true;
     entropy := true; regex := true;
     since_commit := None; max_depth := 1000000; branch := None;
     include_paths := Some {| file_name := "include.txt"; file_text := text |};
     exclude_paths := None;
     repo_path := None; cleanup := false; pre_commit := false;
     git_url := Some "https://example.org/repo.git" |}.

Definition nl : string := String Py.LF "".

(** A pattern file with a repeated line, a comment, a blank line and a
    last line that is not terminated. *)
Definition include_text : string :=
  "foo" +:+ nl +:+ "  #c" +:+ nl +:+ "foo" +:+ nl +:+ nl +:+ "bar".

(** [tartufo -i FILE URL] with that file. *)
Definition filtered : Kwargs := with_include include_text.

(** The history scan of [filtered], as [main] calls it. *)
Definition filtered_scan : Event :=
  let a := strings_args filtered (regexes env)
                        [Compiled "foo"; Compiled "ba"] [] in
  FindStrings a (find_strings env a).

(** [FILE] holds an opening parenthesis and nothing else. *)
Definition lone_paren : Kwargs := with_include "(".

(** [FILE] holds an opening parenthesis and a line feed. *)
Definition paren_line : Kwargs := with_include ("(" +:+ nl).

(** A rules file that cannot be read: the configuration raises
    [ValueError]. *)
Definition env_rules_error : Env :=
  {| regexes := regexes env;
     configure_regexes_from_args :=
       fun _ _ => inl (ValueError "Error reading rules file");
     set_iteration := order;
     compile_error := compile_error env;
     find_staged := find_staged env;
     find_strings := find_strings env;
     clean_outputs := clean_outputs env |}.

(** A rules configuration that raises something else. *)
Definition env_rules_raise : Env :=
  {| regexes := regexes env;
     configure_regexes_from_args :=
       fun _ _ => inl (OtherException "KeyError" "rules");
     set_iteration := order;
     compile_error := compile_error env;
     find_staged := find_staged env;
     find_strings := find_strings env;
     clean_outputs := clean_outputs env |}.

(** [tartufo --cleanup URL] *)
Definition cleaned : Kwargs :=
  {| json := false; rules := []; default_regexes := true;
     entropy := true; regex := true;
     since_commit := None; max_depth := 1000000; branch := None;
     include_paths := None; exclude_paths := None;
     repo_path := None; cleanup := true; pre_commit := false;
     git_url := Some "https://example.org/repo.git" |}.

(** [tartufo -i FILE -x FILE2 URL]: one of the two patterns of [FILE] is
    refused, and [FILE2] holds one more. *)
Definition refused_first : Kwargs :=
  {| json := false; rules := []; default_regexes := true;
     entropy := true; regex := true;
     since_commit := None; max_depth := 1000000; branch := None;
     include_paths :=
       Some {| file_name := "include.txt";
               file_text := "(" +:+ nl +:+ "src/" +:+ nl |};
     exclude_paths :=
       Some {| file_name := "exclude.txt"; file_text := "tests/" +:+ nl |};
     repo_path := None; cleanup := false; pre_commit := false;
     git_url := Some "https://example.org/repo.git" |}.

(** [tartufo --pre-commit -i FILE]: [FILE] holds an opening parenthesis
    and a line feed. *)
Definition staged_refused : Kwargs :=
  {| json := false; rules := []; default_regexes := true;
     entropy := true; regex := true;
     since_commit := None; max_depth := 1000000; branch := None;
     include_paths :=
       Some {| file_name := "include.txt"; file_text := "(" +:+ nl |};
     exclude_paths := None;
     repo_path := None; cleanup := false; pre_commit := true;
     git_url := None |}.

(** A history scan whose result has no [found_issues], and a clean-up that
    fails. *)
Definition env_clean_fails : Env :=
  {| regexes := regexes env;
     configure_regexes_from_args := configure_regexes_from_args env;
     set_iteration := order;
     compile_error := compile_error env;
     find_staged := find_staged env;
     find_strings := fun _ => inr {[ "issues_path" := Py.VStr "/tmp/tartufo" ]};
     clean_outputs := fun _ =>
       inl (OtherException "PermissionError" "/tmp/tartufo") |}.

(** [tartufo -i FILE URL]: [FILE] holds comments and blank lines only. *)
Definition only_comments : Kwargs :=
  with_include ("# generated" +:+ nl +:+ nl +:+ "   # nothing yet" +:+ nl).

End Sample.

(** * Proofs *)

(** ** Strings and lines *)

Section Strings.

Implicit Types (s l p : string) (c : Ascii.ascii).

Lemma nonempty_true s : Py.nonempty s = true ↔ s ≠ "".
Proof.
  unfold Py.nonempty. destruct (String.eqb_spec s ""); simpl; split;
    congruence.
Qed.

Lemma append_last_nonempty s c : s +:+ String c "" ≠ "".
Proof. destruct s; discriminate. Qed.

Lemma drop_last_snoc s : s ≠ "" → ∃ c, s = Py.drop_last s +:+ String c "".
Proof.
  induction s as [|c s IH]; [done | intros _].
  destruct s as [|c' s'].
  - by exists c.
  - destruct IH as [c0 IH]; [done |]. exists c0.
    change (String c (String c' s')
            = String c (Py.drop_last (String c' s') +:+ String c0 "")).
    f_equal. exact IH.
Qed.

Lemma drop_last_append_last s c : Py.drop_last (s +:+ String c "") = s.
Proof.
  induction s as [|c' s IH]; [done |].
  simpl. rewrite IH. destruct s; done.
Qed.

Lemma lstrip_drop_last l :
  Py.lstrip (Py.drop_last l) = Py.drop_last (Py.lstrip l).
Proof.
  induction l as [|c l IH]; [done |].
  destruct l as [|c' l'].
  - simpl. by destruct (Py.isspace c).
  - change (Py.drop_last (String c (String c' l')))
      with (String c (Py.drop_last (String c' l'))).
    change (Py.lstrip (String c (String c' l')))
      with (if Py.isspace c then Py.lstrip (String c' l')
            else String c (String c' l')).
    change (Py.lstrip (String c (Py.drop_last (String c' l'))))
      with (if Py.isspace c then Py.lstrip (Py.drop_last (String c' l'))
            else String c (Py.drop_last (String c' l'))).
    destruct (Py.isspace c); [exact IH | done].
Qed.

Lemma startswith_hash_cons c s :
  Py.startswith "#" (String c s) = bool_decide (c = "#"%char).
Proof.
  change (Py.startswith "#" (String c s))
    with (if Ascii.ascii_dec "#" c then String.prefix "" s else false).
  destruct (Ascii.ascii_dec "#" c) as [<-|Hne].
  - rewrite bool_decide_eq_true_2 by done. by destruct s.
  - rewrite bool_decide_eq_false_2; [done | congruence].
Qed.

(** A line whose first non-blank character is [#] yields the empty text
    or a text starting with [#]. *)
Lemma comment_line_not_kept l :
  Py.startswith "#" (Py.lstrip l) = true → kept (pattern_of_line l) = false.
Proof.
  unfold pattern_of_line, kept. rewrite lstrip_drop_last.
  destruct (Py.lstrip l) as [|c r]; [done |].
  rewrite startswith_hash_cons. intros Hc%bool_decide_eq_true. subst c.
  destruct r as [|c' r']; [done |].
  change (Py.drop_last (String "#" (String c' r')))
    with (String "#" (Py.drop_last (String c' r'))).
  rewrite startswith_hash_cons, bool_decide_eq_true_2 by done.
  by rewrite andb_false_r.
Qed.

(** Any other line with a non-empty text is kept. *)
Lemma plain_line_kept l :
  pattern_of_line l ≠ "" → Py.startswith "#" (Py.lstrip l) = false →
  kept (pattern_of_line l) = true.
Proof.
  unfold pattern_of_line, kept. rewrite lstrip_drop_last.
  destruct (Py.lstrip l) as [|c r]; [done |].
  rewrite startswith_hash_cons. intros Hne Hc.
  apply andb_true_iff; split; [by apply nonempty_true |].
  destruct r as [|c' r']; [done |].
  change (Py.drop_last (String c (String c' r')))
    with (String c (Py.drop_last (String c' r'))).
  by rewrite startswith_hash_cons, Hc.
Qed.

(** Iteration never yields an empty line. *)
Lemma readlines_from_nonempty cur s l :
  l ∈ Py.readlines_from cur s → l ≠ "".
Proof.
  revert cur. induction s as [|c s IH]; intros cur; simpl.
  - destruct (Py.nonempty cur) eqn:Hcur; [| by intros ?%elem_of_nil].
    intros ->%list_elem_of_singleton. by apply nonempty_true.
  - destruct (Ascii.eqb c Py.LF).
    + intros [-> | Hin]%elem_of_cons; [apply append_last_nonempty | eauto].
    + eauto.
Qed.

Lemma lines_nonempty f l : l ∈ lines f → l ≠ "".
Proof. apply readlines_from_nonempty. Qed.

End Strings.

(** ** The pattern loop *)

Section PatternLoop.

Variable env : Env.

Lemma compile_pattern_skip acc p :
  kept p = false → compile_pattern env acc p = ([], inr acc).
Proof. unfold compile_pattern. by intros ->. Qed.

Lemma compile_pattern_raise acc p ex :
  kept p = true → compile_error env p = Some ex →
  compile_pattern env acc p = ([ReCompile p (inl ex)], inl (Uncaught ex)).
Proof. unfold compile_pattern, re_compile. by intros -> ->. Qed.

Lemma compile_pattern_append acc p :
  kept p = true → compile_error env p = None →
  compile_pattern env acc p
  = ([ReCompile p (inr (Compiled p))], inr (acc ++ [Compiled p])).
Proof. unfold compile_pattern, re_compile. by intros -> ->. Qed.

(** What the loop leaves behind, by induction on the texts still to visit:
    it either compiles every kept text, in order, or stops at the first
    one [re.compile] refuses, with that [re.error] uncaught. *)
Lemma loop_spec (ps : list string) (acc : list Pattern) tr r :
  for_each (compile_pattern env) ps acc = (tr, r) →
  Forall (λ e, is_recompile e = true) tr ∧
  match r with
  | inr out =>
      out = acc ++ (Compiled <$> filter kept ps) ∧
      existsb is_compile_failure tr = false
  | inl s =>
      (∃ p ex, p ∈ ps ∧ kept p = true ∧ compile_error env p = Some ex ∧
               s = Uncaught ex) ∧
      existsb is_compile_failure tr = true
  end.
Proof.
  revert acc tr r. induction ps as [|p ps IH]; intros acc tr r.
  - intros [= <- <-]. by rewrite app_nil_r.
  - cbn [for_each]. destruct (kept p) eqn:Hk.
    + destruct (compile_error env p) as [msg|] eqn:He.
      * rewrite (compile_pattern_raise _ _ msg) by done.
        intros [= <- <-]. split; [by repeat constructor |]. split; [| done].
        exists p, msg. split_and!; [apply list_elem_of_here | done..].
      * rewrite compile_pattern_append by done. cbn [bind].
        destruct (for_each _ ps _) as [tr' r'] eqn:Hrest.
        apply IH in Hrest as [Hall Hres]. intros [= <- <-].
        split; [by constructor |].
        destruct r' as [s|out].
        -- destruct Hres as [(q & msg & Hq & Hkq & Hmsg & ->) Hfail].
           split; [| done].
           exists q, msg. split_and!; [by apply list_elem_of_further | done..].
        -- destruct Hres as [-> Hfail]. split; [| done].
           rewrite filter_cons_True by by apply Is_true_true_2.
           by rewrite fmap_cons, <- app_assoc.
    + rewrite compile_pattern_skip by done. cbn [bind].
      destruct (for_each _ ps _) as [tr' r'] eqn:Hrest.
      apply IH in Hrest as [Hall Hres]. intros [= <- <-].
      split; [done |].
      destruct r' as [s|out].
      * destruct Hres as [(q & msg & Hq & Hkq & Hmsg & ->) Hfail].
        split; [| done].
        exists q, msg. split_and!; [by apply list_elem_of_further | done..].
      * destruct Hres as [-> Hfail]. split; [| done].
        rewrite filter_cons_False; [done |]. by apply Is_true_false_2.
Qed.

(** The events of [compile_paths] are [re.compile] calls only. *)
Lemma compile_paths_events file tr r :
  compile_paths env file = (tr, r) → Forall (λ e, is_recompile e = true) tr.
Proof.
  destruct file as [f|]; [| by intros [= <- <-]].
  intros Heq. by apply loop_spec in Heq as [? _].
Qed.

(** On success the list holds the kept texts of the file, compiled. *)
Lemma compile_paths_ok file tr out :
  compile_paths env file = (tr, inr out) →
  out = Compiled <$> filter kept (patterns_of env file) ∧
  existsb is_compile_failure tr = false.
Proof.
  destruct file as [f|]; [| by intros [= <- <-]].
  intros Heq. by apply loop_spec in Heq as [_ ?].
Qed.

(** On failure a kept text of the file was refused by [re.compile]. *)
Lemma compile_paths_raised file tr s :
  compile_paths env file = (tr, inl s) →
  (∃ p ex, p ∈ patterns_of env file ∧ kept p = true ∧
           compile_error env p = Some ex ∧ s = Uncaught ex) ∧
  existsb is_compile_failure tr = true.
Proof.
  destruct file as [f|]; [| done].
  intros Heq. by apply loop_spec in Heq as [_ ?].
Qed.

(** The loop succeeds as soon as [re.compile] accepts every kept text. *)
Lemma compile_paths_total file :
  (∀ p, p ∈ patterns_of env file → kept p = true →
        compile_error env p = None) →
  ∃ tr, compile_paths env file
        = (tr, inr (Compiled <$> filter kept (patterns_of env file))).
Proof.
  intros Hok. destruct (compile_paths env file) as [tr [s|out]] eqn:Heq.
  - apply compile_paths_raised in Heq as [(p & msg & Hp & Hk & He & _) _].
    rewrite (Hok p Hp Hk) in He. done.
  - exists tr. by apply compile_paths_ok in Heq as [-> _].
Qed.

End PatternLoop.

(** ** Every run follows a path *)

Lemma prepend_stop {A} t tr s : @prepend A t (tr, inl s) = (t ++ tr, inl s).
Proof. done. Qed.

Lemma call_bind {A B} (ev : Exn + A → Event) (r : Exn + A) (f : A → M B) :
  bind (call ev r) f
  = match r with
    | inl e => ([ev r], inl (Uncaught e))
    | inr a => prepend [ev r] (f a)
    end.
Proof. by destruct r. Qed.

Lemma try_call {A} (ev : Exn + A → Event) (r : Exn + A) (h : string → M A) :
  try_except_ValueError (call ev r) h
  = match r with
    | inl (ValueError msg) => prepend [ev r] (h msg)
    | inl e => ([ev r], inl (Uncaught e))
    | inr a => ([ev r], inr a)
    end.
Proof. by destruct r as [[]|]. Qed.

Ltac leaf := cbn [prepend app]; eexists _, _; split; [reflexivity |].

(** Lines 120-129 end the run the way [Finish] says. *)
Lemma finish_run env k (d : gmap string Py.Val) :
  ∃ tl s,
    ((if cleanup k then call (CleanOutputs d) (clean_outputs env d)
      else
        when (Py.truthy (default Py.VNone (d !! "issues_path")))
             (print ("Results have been saved in "
                     +:+ Py.str (default Py.VNone (d !! "issues_path"))))) ;;
     when (Py.truthy (default (Py.VBool false) (d !! "found_issues")))
          (ctx_exit 1) ;;
     ctx_exit 0 : M Empty_set) = (tl, inl s)
    ∧ Finish env k (inr d) tl s.
Proof.
  fold (found_issues d). destruct (cleanup k) eqn:Hcl.
  - unfold call. destruct (clean_outputs env d) as [e|[]] eqn:Hcd.
    + cbn [bind]. leaf. by apply FinishCleanRaised.
    + pose proof (FinishCleaned env k d Hcl Hcd) as HF.
      destruct (found_issues d); cbn [bind when ctx_exit ret]; leaf; exact HF.
  - pose proof (FinishReported env k d Hcl) as HF. unfold report in HF.
    destruct (Py.truthy (default Py.VNone (d !! "issues_path")));
      destruct (found_issues d);
      cbn [bind when ctx_exit ret print emit]; leaf; exact HF.
Qed.

(** Every run of [main] follows one of the paths, and none returns. *)
Lemma main_run env ctx k :
  ∃ tr s, main env ctx k = (tr, inl s) ∧ Run env ctx k tr s.
Proof.
  unfold main. fold (detectors k) (sources k) (configured env k).
  cbn [bind echo emit].
  destruct (detectors k) eqn:Hd; cbn [negb when bind err emit ctx_exit ret];
    [| leaf; by apply RunNoAnalysis].
  destruct (sources k) eqn:Hs; cbn [negb when bind err emit ctx_exit ret];
    [| leaf; by apply RunNoSource].
  rewrite try_call.
  destruct (configured env k) as [[msg|cls msg]|rules] eqn:Hc;
    cbn [bind err emit ctx_exit].
  { leaf. by apply RunRulesError. }
  { leaf. by apply RunRulesRaised. }
  destruct (regex k && bool_decide (rules = ∅)) eqn:Hr;
    cbn [when bind err emit ctx_exit ret].
  { leaf. apply andb_true_iff in Hr as [Hr ->%bool_decide_eq_true].
    by apply RunNoRegexes. }
  destruct (compile_paths env (include_paths k)) as [tri [s|incl]] eqn:Hi;
    cbn [bind].
  { leaf. by eapply RunIncludeRaised. }
  destruct (compile_paths env (exclude_paths k)) as [tre [s|excl]] eqn:He;
    cbn [bind].
  { leaf. by eapply RunExcludeRaised. }
  pose proof (λ tl s, RunScan env ctx k rules tri incl tre excl tl s
                        Hd Hs Hc Hr Hi He) as HR.
  unfold scan_event, scan_result in HR.
  destruct (pre_commit k); cbv zeta; rewrite call_bind.
  - destruct (find_staged env _) as [e|d] eqn:Hf.
    + leaf. apply HR, FinishScanRaised.
    + destruct (finish_run env k d) as (tl & s & -> & HF). leaf. by apply HR.
  - destruct (find_strings env _) as [e|d] eqn:Hf.
    + leaf. apply HR, FinishScanRaised.
    + destruct (finish_run env k d) as (tl & s & -> & HF). leaf. by apply HR.
Qed.

(** ** Events along a path *)

Lemma existsb_false_iff {A} (f : A → bool) (l : list A) :
  existsb f l = false ↔ ∀ x, x ∈ l → f x = false.
Proof.
  induction l as [|a l IH]; simpl.
  - split; [by intros _ x ?%elem_of_nil | done].
  - rewrite orb_false_iff, IH. split.
    + intros [Ha Hl] x [-> | Hx]%elem_of_cons; auto.
    + intros H. split; [apply H, list_elem_of_here |].
      intros x Hx. by apply H, list_elem_of_further.
Qed.

Lemma existsb_true_iff {A} (f : A → bool) (l : list A) :
  existsb f l = true ↔ ∃ x, x ∈ l ∧ f x = true.
Proof.
  induction l as [|a l IH]; simpl.
  - split; [done | by intros (x & ?%elem_of_nil & _)].
  - rewrite orb_true_iff, IH. split.
    + intros [Ha | (x & Hx & Hf)].
      * exists a. split; [apply list_elem_of_here | done].
      * exists x. split; [by apply list_elem_of_further | done].
    + intros (x & [-> | Hx]%elem_of_cons & Hf); eauto.
Qed.

(** A [re.compile] call is neither a scanner call nor an error message. *)
Lemma recompile_event tr e :
  Forall (λ e, is_recompile e = true) tr → e ∈ tr →
  is_scan e = false ∧ is_err e = false ∧ scan_output e = None ∧
  scan_patterns e = None ∧ is_echo e = false.
Proof.
  intros Hall He. rewrite Forall_forall in Hall.
  specialize (Hall e He). by destruct e.
Qed.

(** Nor is anything that happens after the scanner answered. *)
Lemma finish_event env k r tl s e :
  Finish env k r tl s → e ∈ tl →
  is_scan e = false ∧ is_err e = false ∧ is_compile_failure e = false ∧
  scan_output e = None ∧ scan_patterns e = None ∧ is_echo e = false.
Proof.
  intros [e'|d e' _ _|d _ _|d _]; try (by intros ?%elem_of_nil);
    try (by intros ->%list_elem_of_singleton).
  unfold report. destruct (Py.truthy _); [| by intros ?%elem_of_nil].
  by intros ->%list_elem_of_singleton.
Qed.

Lemma scan_event_is_scan env k rules incl excl :
  is_scan (scan_event env k rules incl excl) = true.
Proof. unfold scan_event. by destruct (pre_commit k). Qed.

Lemma scan_event_patterns env k rules incl excl :
  scan_patterns (scan_event env k rules incl excl) = Some (incl, excl).
Proof. unfold scan_event. by destruct (pre_commit k). Qed.

Lemma scan_event_output env k rules incl excl :
  scan_output (scan_event env k rules incl excl)
  = match scan_result env k rules incl excl with
    | inl _ => None
    | inr d => Some d
    end.
Proof. unfold scan_event, scan_result. by destruct (pre_commit k). Qed.

(** Membership in the trace of a path, one event class at a time. *)
Ltac split_trace H :=
  unfold banner in H;
  repeat (rewrite elem_of_app in H || rewrite elem_of_cons in H
          || rewrite elem_of_nil in H);
  destruct_or?; subst; try done.

(** The only scanner call of a run is the one of lines 93-118, made after
    the request passed validation and both pattern files compiled. *)
Lemma run_scan_inv env ctx k tr s e :
  Run env ctx k tr s → e ∈ tr → is_scan e = true →
  ∃ rules tri incl tre excl tl,
    detectors k = true ∧ sources k = true ∧
    configured env k = inr rules ∧
    regex k && bool_decide (rules = ∅) = false ∧
    compile_paths env (include_paths k) = (tri, inr incl) ∧
    compile_paths env (exclude_paths k) = (tre, inr excl) ∧
    Finish env k (scan_result env k rules incl excl) tl s ∧
    e = scan_event env k rules incl excl ∧
    tr = banner ctx k ++ ConfigureRegexes (inr rules) :: tri ++ tre
         ++ scan_event env k rules incl excl :: tl.
Proof.
  intros R He Hscan.
  destruct R; split_trace He;
    try match goal with
      | Hi : compile_paths _ _ = (?t, _), Hin : e ∈ ?t |- _ =>
          destruct (recompile_event _ _ (compile_paths_events _ _ _ _ Hi) Hin)
            as (? & _); congruence
      | HF : Finish _ _ _ ?t _, Hin : e ∈ ?t |- _ =>
          destruct (finish_event _ _ _ _ _ _ HF Hin) as (? & _); congruence
      end.
  by repeat eexists.
Qed.

Lemma filter_none {A} (f : A → bool) (l : list A) :
  (∀ x, x ∈ l → f x = false) → List.filter f l = [].
Proof.
  induction l as [|a l IH]; [done |]. intros H. simpl.
  rewrite (H a) by apply list_elem_of_here.
  apply IH. intros x Hx. by apply H, list_elem_of_further.
Qed.

Lemma elem_of_scan_path {A} (x c : A) (l0 l1 l2 l3 : list A) :
  x ∈ l0 ++ c :: l1 ++ l2 ++ x :: l3.
Proof.
  apply elem_of_app; right. apply elem_of_cons; right.
  apply elem_of_app; right. apply elem_of_app; right.
  apply list_elem_of_here.
Qed.

(** On the path that comes to the scanner there is one scanner call. *)
Lemma scan_path_calls env k ctx rules tri incl tre excl tl r s :
  compile_paths env (include_paths k) = (tri, r) →
  compile_paths env (exclude_paths k) = (tre, inr excl) →
  Finish env k (scan_result env k rules incl excl) tl s →
  List.filter is_scan
    (banner ctx k ++ ConfigureRegexes (inr rules) :: tri ++ tre
     ++ scan_event env k rules incl excl :: tl)
  = [scan_event env k rules incl excl].
Proof.
  intros Hi Hx HF. unfold banner. cbn [app List.filter is_scan is_find_staged
                                        is_find_strings orb].
  rewrite !List.filter_app. cbn [List.filter].
  rewrite scan_event_is_scan.
  rewrite (filter_none _ tri), (filter_none _ tre), (filter_none _ tl); [done | ..].
  - intros e He. by destruct (finish_event _ _ _ _ _ _ HF He) as (? & _).
  - intros e He.
    by destruct (recompile_event _ _ (compile_paths_events _ _ _ _ Hx) He)
      as (? & _).
  - intros e He.
    by destruct (recompile_event _ _ (compile_paths_events _ _ _ _ Hi) He)
      as (? & _).
Qed.

(** Whether a path reports an error, meets a refused pattern, or neither. *)
Ltac eval_existsb H :=
  unfold banner in H; rewrite ?existsb_app in H;
  cbn [app existsb is_err is_compile_failure is_clean_failure orb] in H;
  rewrite ?existsb_app in H;
  cbn [app existsb is_err is_compile_failure is_clean_failure orb] in H.

Lemma existsb_filter {A} (f g : A → bool) (l : list A) :
  (∀ x, f x = true → g x = true) →
  existsb f (List.filter g l) = existsb f l.
Proof.
  intros Hfg. induction l as [|a l IH]; [done |]. simpl.
  destruct (g a) eqn:Hg; simpl; [by rewrite IH |].
  rewrite IH. destruct (f a) eqn:Hf; [| done].
  by rewrite (Hfg a Hf) in Hg.
Qed.

(** [main] calls [err] exactly on a validation error. *)
Lemma validation_error_reported env ctx k :
  existsb is_err (main env ctx k).1 = validation_error env k.
Proof.
  unfold validation_error.
  fold (detectors k) (sources k) (configured env k).
  destruct (main_run env ctx k) as (tr & s & -> & R). cbn [fst].
  destruct R;
    repeat match goal with
      | H : detectors k = _ |- _ => rewrite H; clear H
      | H : sources k = _ |- _ => rewrite H; clear H
      | H : configured env k = _ |- _ => rewrite H; clear H
      | H : regex k && _ = false |- _ => rewrite H; clear H
      | H : regex k = true |- _ => rewrite H; clear H
      end;
    try done; cbn [negb orb];
    apply existsb_false_iff; intros e He; split_trace He;
    try match goal with
      | Hi : compile_paths _ _ = (?t, _), Hin : e ∈ ?t |- _ =>
          by destruct (recompile_event _ _ (compile_paths_events _ _ _ _ Hi) Hin)
            as (_ & ? & _)
      | HF : Finish _ _ _ ?t _, Hin : e ∈ ?t |- _ =>
          by destruct (finish_event _ _ _ _ _ _ HF Hin) as (_ & ? & _)
      end.
  unfold scan_event. by destruct (pre_commit k).
Qed.

(** ** The pattern lists handed to the scanner *)

Lemma pattern_set_NoDup env f : NoDup (pattern_set env f).
Proof. apply iterate_NoDup. Qed.

Lemma elem_of_pattern_set env f p :
  p ∈ pattern_set env f ↔ ∃ l, l ∈ lines f ∧ p = pattern_of_line l.
Proof.
  unfold pattern_set. rewrite iterate_elem.
  rewrite list_elem_of_fmap. unfold pattern_of_line.
  split; intros (l & H1 & H2); exists l; done.
Qed.

#[local] Instance Compiled_inj : Inj (=) (=) Compiled.
Proof. by intros p q [= ->]. Qed.

(** The compiled list of a file: no text twice, and exactly the kept texts
    of its lines. *)
Lemma compiled_NoDup env f :
  NoDup (Compiled <$> filter kept (pattern_set env f)).
Proof. apply NoDup_fmap_2; [apply _ |]. apply NoDup_filter, pattern_set_NoDup. Qed.

Lemma elem_of_compiled env f c :
  c ∈ Compiled <$> filter kept (pattern_set env f) ↔
  ∃ l, l ∈ lines f ∧ pattern c = pattern_of_line l ∧
       kept (pattern_of_line l) = true.
Proof.
  rewrite list_elem_of_fmap. split.
  - intros (p & -> & [Hk (l & Hl & ->)%elem_of_pattern_set]%list_elem_of_filter).
    exists l. split_and!; [done.. |]. by apply Is_true_true_1.
  - intros (l & Hl & Hp & Hk). exists (pattern_of_line l). split.
    + destruct c as [p]. simpl in Hp. by subst.
    + apply list_elem_of_filter. split; [by apply Is_true_true_2 |].
      apply elem_of_pattern_set. eauto.
Qed.

(** What a scanner call receives for an option is the compiled list of the
    option's file, and the empty list when the option is absent. *)
Lemma path_patterns_inv env ctx k e o ps :
  e ∈ (main env ctx k).1 → path_patterns o e = Some ps →
  ps = Compiled <$> filter kept (patterns_of env (path_file o k)).
Proof.
  destruct (main_run env ctx k) as (tr & s & -> & R). cbn [fst].
  intros He Hps.
  assert (is_scan e = true) as Hscan by (by destruct e).
  destruct (run_scan_inv _ _ _ _ _ _ R He Hscan)
    as (rules & tri & incl & tre & excl & tl
        & _ & _ & _ & _ & Hi & Hx & _ & -> & _).
  unfold path_patterns in Hps. rewrite scan_event_patterns in Hps.
  apply compile_paths_ok in Hi as [-> _].
  apply compile_paths_ok in Hx as [-> _].
  destruct o; by injection Hps as <-.
Qed.

(** ** Request validation *)

(** C1.  When both the entropy and the regex detector are switched off,
    [main] writes its two echo lines, reports "No analysis requested." and
    leaves with status 1; no scanner entry point is entered, whatever the
    other options are. *)
Theorem no_analysis_requested_exits env ctx k :
  entropy k = false → regex k = false →
  main env ctx k
  = ([Echo (PAttrs (dir ctx)); Echo (PKwargs k);
      Err "No analysis requested."], inl (Exit 1))
  ∧ existsb is_scan (main env ctx k).1 = false.
Proof.
  intros He Hr.
  assert (main env ctx k
          = ([Echo (PAttrs (dir ctx)); Echo (PKwargs k);
              Err "No analysis requested."], inl (Exit 1))) as ->.
  { unfold main. by rewrite He, Hr. }
  done.
Qed.

Lemma no_analysis_requested_exits_witness :
  entropy Sample.no_detector = false ∧ regex Sample.no_detector = false ∧
  main Sample.env Sample.ctx Sample.no_detector
  = ([Echo (PAttrs ["exit"; "params"]); Echo (PKwargs Sample.no_detector);
      Err "No analysis requested."], inl (Exit 1)).
Proof.
  split; [reflexivity |]. split; [reflexivity |].
  apply (no_analysis_requested_exits Sample.env Sample.ctx Sample.no_detector);
    reflexivity.
Defined.

(** C2.  When the pre-commit flag is off and neither a repository path
    nor a git URL is given (absent, or the empty string), [main] leaves
    with status 1 and has called nothing outside [cli.py]: no rules
    configuration, no scanner, no clean-up. *)
Theorem no_source_exits env ctx k :
  pre_commit k = false →
  Py.truthy_str (repo_path k) = false →
  Py.truthy_str (git_url k) = false →
  outcome (main env ctx k) = Exit 1
  ∧ existsb is_call (main env ctx k).1 = false.
Proof.
  intros Hp Hr Hg.
  assert (sources k = false) as Hs by (unfold sources; by rewrite Hp, Hr, Hg).
  destruct (main_run env ctx k) as (tr & s & -> & R).
  unfold outcome. cbn [fst snd].
  destruct R; try congruence; done.
Qed.

Lemma no_source_exits_witness :
  pre_commit Sample.no_source = false ∧
  repo_path Sample.no_source = None ∧ git_url Sample.no_source = None ∧
  outcome (main Sample.env Sample.ctx Sample.no_source) = Exit 1 ∧
  existsb is_call (main Sample.env Sample.ctx Sample.no_source).1 = false.
Proof.
  split; [reflexivity |]. split; [reflexivity |]. split; [reflexivity |].
  apply (no_source_exits Sample.env Sample.ctx Sample.no_source); reflexivity.
Defined.

(** C3.  When regex checks are on and the rules configuration returns an
    empty rule set, [main] leaves with status 1 and no scanner entry point
    is entered: the emptiness is caught before any commit is walked. *)
Theorem empty_rule_set_exits env ctx k :
  regex k = true →
  configure_regexes_from_args env k (regexes env) = inr ∅ →
  outcome (main env ctx k) = Exit 1
  ∧ existsb is_scan (main env ctx k).1 = false.
Proof.
  intros Hr Hc. fold (configured env k) in Hc.
  destruct (main_run env ctx k) as (tr & s & -> & R).
  unfold outcome. cbn [fst snd].
  destruct R; try congruence; try done;
    match goal with
    | H : configured env k = inr ?r |- _ =>
        rewrite Hc in H; injection H as <-;
        rewrite Hr, bool_decide_eq_true_2 in * by done; done
    end.
Qed.

Lemma empty_rule_set_exits_witness :
  regex Sample.history = true ∧
  configure_regexes_from_args Sample.env_no_rules Sample.history
    (regexes Sample.env_no_rules) = inr ∅ ∧
  outcome (main Sample.env_no_rules Sample.ctx Sample.history) = Exit 1 ∧
  existsb is_scan (main Sample.env_no_rules Sample.ctx Sample.history).1 = false.
Proof.
  split; [reflexivity |]. split; [reflexivity |].
  apply (empty_rule_set_exits Sample.env_no_rules Sample.ctx Sample.history);
    reflexivity.
Defined.

(** C10.  Every run starts with two [click.echo] calls, the attribute
    listing of the context and then the whole option set, ahead of every
    validation step; nothing else is echoed afterwards. *)
Theorem echo_before_validation env ctx k :
  ∃ rest,
    (main env ctx k).1 = Echo (PAttrs (dir ctx)) :: Echo (PKwargs k) :: rest
    ∧ existsb is_echo rest = false.
Proof.
  destruct (main_run env ctx k) as (tr & s & -> & R). cbn [fst].
  destruct R; (eexists; split; [reflexivity |]);
    apply existsb_false_iff; intros e He; split_trace He;
    try match goal with
      | Hi : compile_paths _ _ = (?t, _), Hin : e ∈ ?t |- _ =>
          by destruct (recompile_event _ _ (compile_paths_events _ _ _ _ Hi) Hin)
            as (_ & _ & _ & _ & ?)
      | HF : Finish _ _ _ ?t _, Hin : e ∈ ?t |- _ =>
          by destruct (finish_event _ _ _ _ _ _ HF Hin)
            as (_ & _ & _ & _ & _ & ?)
      end.
  unfold scan_event. by destruct (pre_commit k).
Qed.

(** ** Path patterns *)

Example include_text_lines :
  lines {| file_name := "include.txt"; file_text := Sample.include_text |}
  = ["foo" +:+ Sample.nl; "  #c" +:+ Sample.nl; "foo" +:+ Sample.nl;
     Sample.nl; "bar"].
Proof. reflexivity. Qed.

(** C5.  For either pattern option, and any line of its file: if the line
    is blank once its last character is dropped and it is left-stripped,
    or if its first non-blank character is [#], no pattern handed to the
    scanner comes from it; any other line, however often the file repeats
    it, accounts for exactly one pattern in the list. *)
Theorem path_patterns_skip_and_dedup env ctx k i e o ps f j l :
  (main env ctx k).1 !! i = Some e →
  path_patterns o e = Some ps →
  path_file o k = Some f →
  lines f !! j = Some l →
  (pattern_of_line l = "" ∨ Py.startswith "#" (Py.lstrip l) = true →
   ∀ c, c ∈ ps → pattern c ≠ pattern_of_line l)
  ∧ (pattern_of_line l ≠ "" → Py.startswith "#" (Py.lstrip l) = false →
     count_occ Pattern_eq_dec ps (Compiled (pattern_of_line l)) = 1%nat).
Proof.
  intros He%list_elem_of_lookup_2 Hps Hf Hl%list_elem_of_lookup_2.
  apply (path_patterns_inv _ _ _ _ _ _ He) in Hps as ->.
  rewrite Hf. cbn [patterns_of]. split.
  - intros Hskip c (l' & _ & Hc & Hk)%elem_of_compiled Heq.
    rewrite <- Hc, Heq in Hk.
    destruct Hskip as [Hblank | Hcomment].
    + by rewrite Hblank in Hk.
    + by rewrite (comment_line_not_kept l Hcomment) in Hk.
  - intros Hne Hplain.
    pose proof (plain_line_kept l Hne Hplain) as Hk.
    apply NoDup_count_occ'; [apply NoDup_ListNoDup, compiled_NoDup |].
    apply list_elem_of_In, elem_of_compiled. by exists l.
Qed.

Lemma path_patterns_skip_and_dedup_witness :
  (main Sample.env Sample.ctx Sample.filtered).1 !! 5%nat
  = Some Sample.filtered_scan ∧
  path_patterns IncludePaths Sample.filtered_scan
  = Some [Compiled "foo"; Compiled "ba"] ∧
  count_occ Pattern_eq_dec [Compiled "foo"; Compiled "ba"] (Compiled "foo")
  = 1%nat ∧
  (∀ c, c ∈ [Compiled "foo"; Compiled "ba"] → pattern c ≠ "#c").
Proof.
  assert ((main Sample.env Sample.ctx Sample.filtered).1 !! 5%nat
          = Some Sample.filtered_scan) as He by reflexivity.
  assert (path_file IncludePaths Sample.filtered
          = Some {| file_name := "include.txt";
                    file_text := Sample.include_text |}) as Hf by reflexivity.
  split; [exact He |]. split; [reflexivity |]. split.
  - apply (path_patterns_skip_and_dedup
             Sample.env Sample.ctx Sample.filtered 5 Sample.filtered_scan
             IncludePaths [Compiled "foo"; Compiled "ba"] _
             2 ("foo" +:+ Sample.nl) He eq_refl Hf eq_refl);
      [discriminate | reflexivity].
  - apply (path_patterns_skip_and_dedup
             Sample.env Sample.ctx Sample.filtered 5 Sample.filtered_scan
             IncludePaths [Compiled "foo"; Compiled "ba"] _
             1 ("  #c" +:+ Sample.nl) He eq_refl Hf eq_refl).
    right. reflexivity.
Defined.

(** C8.  For either pattern option, every line of its file loses its last
    character, whatever that character is, before the text is stripped
    and compiled: a line whose text is kept reaches the scanner as
    [l[:-1].lstrip()].  A last line without a line feed therefore loses
    a character of the pattern itself. *)
Theorem last_character_dropped env ctx k i e o ps f j l :
  (main env ctx k).1 !! i = Some e →
  path_patterns o e = Some ps →
  path_file o k = Some f →
  lines f !! j = Some l →
  kept (Py.lstrip (Py.drop_last l)) = true →
  (∃ ch, l = Py.drop_last l +:+ String ch "")
  ∧ Compiled (Py.lstrip (Py.drop_last l)) ∈ ps
  ∧ (∀ c, c ∈ ps → ∃ l', l' ∈ lines f ∧ pattern c = Py.lstrip (Py.drop_last l')).
Proof.
  intros He%list_elem_of_lookup_2 Hps Hf Hl%list_elem_of_lookup_2 Hk.
  apply (path_patterns_inv _ _ _ _ _ _ He) in Hps as ->.
  rewrite Hf. cbn [patterns_of]. split_and!.
  - apply drop_last_snoc. by eapply lines_nonempty.
  - apply elem_of_compiled. by exists l.
  - intros c (l' & Hl' & Hc & _)%elem_of_compiled. by exists l'.
Qed.

Lemma last_character_dropped_witness :
  (main Sample.env Sample.ctx Sample.filtered).1 !! 5%nat
  = Some Sample.filtered_scan ∧
  path_patterns IncludePaths Sample.filtered_scan
  = Some [Compiled "foo"; Compiled "ba"] ∧
  last (lines {| file_name := "include.txt";
                 file_text := Sample.include_text |}) = Some "bar" ∧
  Py.drop_last "bar" = "ba" ∧
  Compiled "ba" ∈ [Compiled "foo"; Compiled "ba"].
Proof.
  assert ((main Sample.env Sample.ctx Sample.filtered).1 !! 5%nat
          = Some Sample.filtered_scan) as He by reflexivity.
  assert (path_file IncludePaths Sample.filtered
          = Some {| file_name := "include.txt";
                    file_text := Sample.include_text |}) as Hf by reflexivity.
  split; [exact He |]. split; [reflexivity |]. split; [reflexivity |].
  split; [reflexivity |].
  apply (last_character_dropped
           Sample.env Sample.ctx Sample.filtered 5 Sample.filtered_scan
           IncludePaths [Compiled "foo"; Compiled "ba"] _
           4 "bar" He eq_refl Hf eq_refl eq_refl).
Defined.

(** ** Scanner dispatch and exit status *)

(** The compiled list of a file is what [compiled_from] describes. *)
Lemma compiled_from_patterns env file :
  compiled_from file (Compiled <$> filter kept (patterns_of env file)).
Proof.
  destruct file as [f|]; cbn [patterns_of].
  - split; [apply compiled_NoDup |]. intros c. rewrite elem_of_compiled.
    split.
    + intros (l & Hl & Hp & Hk). by exists f, l.
    + intros (f' & l & [= <-] & Hl & Hk & Hp). by exists l.
  - split; [apply NoDup_nil_2 |]. intros c. split.
    + by intros ?%elem_of_nil.
    + by intros (f & l & [=] & _).
Qed.

Lemma compiles_patterns env file p :
  compiles env file → p ∈ patterns_of env file → kept p = true →
  compile_error env p = None.
Proof.
  intros Hc Hp Hk. destruct file as [f|]; [| by apply elem_of_nil in Hp].
  apply elem_of_pattern_set in Hp as (l & Hl & ->). by apply (Hc f l).
Qed.

(** A request that passes the three checks and whose kept pattern texts
    compile comes to the scanner call of lines 93-118, with no error
    reported and nothing refused. *)
Lemma valid_request_run env ctx k rules :
  detectors k = true → sources k = true →
  configured env k = inr rules →
  regex k && bool_decide (rules = ∅) = false →
  compiles env (include_paths k) → compiles env (exclude_paths k) →
  List.filter is_scan (main env ctx k).1
  = [scan_event env k rules
       (Compiled <$> filter kept (patterns_of env (include_paths k)))
       (Compiled <$> filter kept (patterns_of env (exclude_paths k)))]
  ∧ existsb is_err (main env ctx k).1 = false.
Proof.
  intros Hd Hs Hc Hr Hincl Hexcl.
  rewrite validation_error_reported. unfold validation_error.
  fold (detectors k) (sources k) (configured env k).
  rewrite Hd, Hs, Hc, Hr. split; [| done].
  destruct (main_run env ctx k) as (tr & s & -> & R). cbn [fst].
  destruct R; try congruence;
    repeat match goal with
      | H : configured env k = inr ∅, H' : regex k = true |- _ =>
          rewrite Hc in H; injection H as ->;
          rewrite H', bool_decide_eq_true_2 in Hr by done; done
      | H : configured env k = inr _ |- _ =>
          rewrite Hc in H; injection H as <-
      | H : compile_paths env (include_paths k) = (_, inl _) |- _ =>
          apply compile_paths_raised in H as [(p & m & Hp & Hk & He & _) _];
          rewrite (compiles_patterns _ _ _ Hincl Hp Hk) in He; done
      | H : compile_paths env (exclude_paths k) = (_, inl _) |- _ =>
          apply compile_paths_raised in H as [(p & m & Hp & Hk & He & _) _];
          rewrite (compiles_patterns _ _ _ Hexcl Hp Hk) in He; done
      end.
  match goal with
  | Hi : compile_paths env (include_paths k) = (_, inr _),
    Hx : compile_paths env (exclude_paths k) = (_, inr _) |- _ =>
      pose proof (compile_paths_ok _ _ _ _ Hi) as [-> _];
      pose proof (compile_paths_ok _ _ _ _ Hx) as [-> _]
  end.
  by erewrite scan_path_calls.
Qed.

(** C7, as the code has it.  With the pre-commit flag set, a detector
    enabled, a rules configuration that returns a rule set passing line 77
    and pattern files whose kept texts all compile, [main] reports no
    error and makes exactly one scanner call, [find_staged], never
    [find_strings].  Nothing is asked of the git URL or of the repository
    path: both may be absent. *)
Theorem pre_commit_scans_staged env ctx k rules :
  pre_commit k = true →
  Py.any [entropy k; regex k] = true →
  configure_regexes_from_args env k (regexes env) = inr rules →
  regex k && bool_decide (rules = ∅) = false →
  compiles env (include_paths k) →
  compiles env (exclude_paths k) →
  existsb is_err (main env ctx k).1 = false
  ∧ existsb is_find_strings (main env ctx k).1 = false
  ∧ ∃ a, List.filter is_scan (main env ctx k).1
         = [FindStaged a (find_staged env a)].
Proof.
  intros Hp Hd Hc Hr Hincl Hexcl.
  assert (sources k = true) as Hs by (unfold sources; by rewrite Hp).
  destruct (valid_request_run env ctx k rules Hd Hs Hc Hr Hincl Hexcl)
    as [Hscan Herr].
  unfold scan_event in Hscan. rewrite Hp in Hscan.
  split; [done |]. split; [| by eexists].
  rewrite <- (existsb_filter is_find_strings is_scan)
    by (by intros []; simpl; auto using orb_true_r).
  by rewrite Hscan.
Qed.

Lemma pre_commit_scans_staged_witness :
  pre_commit Sample.staged = true ∧ git_url Sample.staged = None ∧
  repo_path Sample.staged = None ∧
  existsb is_err (main Sample.env Sample.ctx Sample.staged).1 = false ∧
  existsb is_find_strings (main Sample.env Sample.ctx Sample.staged).1
  = false ∧
  ∃ a, List.filter is_scan (main Sample.env Sample.ctx Sample.staged).1
       = [FindStaged a (find_staged Sample.env a)].
Proof.
  do 3 (split; [reflexivity |]).
  apply (pre_commit_scans_staged Sample.env Sample.ctx Sample.staged
           (regexes Sample.env)); try reflexivity; by intros f l [=].
Defined.

(** C7, as stated, fails: pre-commit mode, the three checks pass, and the
    include file holds the one line "(" followed by a line feed.
    [re.compile] refuses the pattern and [find_staged] is never entered. *)
Lemma pre_commit_counterexample :
  ¬ (pre_commit Sample.staged_refused = true →
     validation_error Sample.env Sample.staged_refused = false →
     existsb is_find_staged
       (main Sample.env Sample.ctx Sample.staged_refused).1 = true).
Proof. intros H. by specialize (H eq_refl eq_refl). Qed.

(** C9, as the code has it.  When the mapping a scanner call returned has
    no [found_issues] key and the clean-up, if requested, returns, [main]
    leaves with status 0: the absent flag counts as no issues found. *)
Theorem missing_found_issues_exits_zero env ctx k i e d :
  (main env ctx k).1 !! i = Some e →
  scan_output e = Some d →
  d !! "found_issues" = None →
  existsb is_clean_failure (main env ctx k).1 = false →
  outcome (main env ctx k) = Exit 0.
Proof.
  intros He%list_elem_of_lookup_2 Hd Hnone.
  destruct (main_run env ctx k) as (tr & s & Heq & R).
  rewrite Heq in He |- *. unfold outcome. cbn [fst snd] in *. intros Hclean.
  assert (is_scan e = true) as Hscan by (by destruct e as [| | | | |? []|? []|]).
  destruct (run_scan_inv _ _ _ _ _ _ R He Hscan)
    as (rules & tri & incl & tre & excl & tl
        & _ & _ & _ & _ & Hi & Hx & HF & -> & ->).
  rewrite scan_event_output in Hd.
  assert (found_issues d = false) as Hfound
    by (unfold found_issues; by rewrite Hnone).
  destruct (scan_result env k rules incl excl) as [ex|d'] eqn:Hres; [done |].
  injection Hd as ->.
  inversion HF; subst; rewrite ?Hfound; try done.
  eval_existsb Hclean. by rewrite !orb_true_r in Hclean.
Qed.

Lemma missing_found_issues_exits_zero_witness :
  (∃ a, (main Sample.env_no_flag Sample.ctx Sample.history).1 !! 3%nat
        = Some (FindStrings a (inr {[ "issues_path" := Py.VStr "/tmp/tartufo" ]})))
  ∧ ({[ "issues_path" := Py.VStr "/tmp/tartufo" ]} : gmap string Py.Val)
    !! "found_issues" = None
  ∧ existsb is_clean_failure
      (main Sample.env_no_flag Sample.ctx Sample.history).1 = false
  ∧ outcome (main Sample.env_no_flag Sample.ctx Sample.history) = Exit 0.
Proof.
  split; [by eexists |]. split; [reflexivity |]. split; [reflexivity |].
  eapply (missing_found_issues_exits_zero
            Sample.env_no_flag Sample.ctx Sample.history 3 _
            {[ "issues_path" := Py.VStr "/tmp/tartufo" ]});
    reflexivity.
Defined.

(** C9, as stated, fails: the history scan returns a mapping without
    [found_issues], [--cleanup] is set and the clean-up raises.  The
    exception leaves [main] at line 121 and [ctx.exit(0)] is never
    reached. *)
Lemma missing_found_issues_counterexample :
  ¬ (∀ e d,
       (main Sample.env_clean_fails Sample.ctx Sample.cleaned).1 !! 3%nat
       = Some e →
       scan_output e = Some d →
       d !! "found_issues" = None →
       outcome (main Sample.env_clean_fails Sample.ctx Sample.cleaned)
       = Exit 0).
Proof.
  intros H.
  assert (outcome (main Sample.env_clean_fails Sample.ctx Sample.cleaned)
          = Exit 0) as Hout by (eapply H; reflexivity).
  done.
Qed.

(** The temporal half of the fail-fast rule: once the rules configuration
    or a [re.compile] call has raised, no scanner entry point is entered;
    [main] ends in [ctx.exit(1)] or with the exception uncaught. *)
Lemma refused_pattern_stops_before_scan env ctx k :
  existsb is_compile_failure (main env ctx k).1 = true →
  existsb is_scan (main env ctx k).1 = false
  ∧ (outcome (main env ctx k) = Exit 1
     ∨ ∃ e, outcome (main env ctx k) = Uncaught e).
Proof.
  destruct (main_run env ctx k) as (tr & s & -> & R).
  unfold outcome. cbn [fst snd]. intros Hfail.
  assert (∀ file t s', compile_paths env file = (t, inl s') →
                       ∃ e, s' = Uncaught e) as Hraised.
  { intros file t s' Hc.
    apply compile_paths_raised in Hc as [(? & ex & _ & _ & _ & ->) _].
    by exists ex. }
  assert (∀ file t r e, compile_paths env file = (t, r) → e ∈ t →
                        is_scan e = false) as Hquiet.
  { intros file t r e Hc He.
    by destruct (recompile_event _ _ (compile_paths_events _ _ _ _ Hc) He)
      as (? & _). }
  destruct R; eval_existsb Hfail; try done;
    try (split; [done | by eauto]).
  - split; [| by eauto]. apply existsb_false_iff.
    intros e He. split_trace He. by eauto.
  - split; [| by eauto]. apply existsb_false_iff.
    intros e He. split_trace He; by eauto.
  - exfalso.
    repeat match goal with
      | Hi : compile_paths _ _ = (_, inr _) |- _ =>
          apply compile_paths_ok in Hi as [_ Hi]; rewrite Hi in Hfail
      end.
    cbn [orb] in Hfail.
    match goal with
    | _ : context [scan_event env k ?r ?i ?x] |- _ =>
        assert (is_compile_failure (scan_event env k r i x) = false) as Hs
          by (unfold scan_event; by destruct (pre_commit k))
    end.
    rewrite Hs in Hfail. cbn [orb] in Hfail.
    apply existsb_true_iff in Hfail as (e & He & Hf).
    match goal with
    | HF : Finish _ _ _ ?t _ |- _ =>
        destruct (finish_event _ _ _ _ _ _ HF He) as (_ & _ & ? & _)
    end.
    congruence.
Qed.

(** Among [re.compile] calls, the refused ones are the uncaught raises. *)
Lemma recompile_raise tr :
  Forall (λ e, is_recompile e = true) tr →
  existsb is_uncaught_raise tr = existsb is_compile_failure tr.
Proof.
  induction 1 as [|e tr He _ IH]; [done |]. simpl. rewrite IH.
  by destruct e as [| | | |? []| | |].
Qed.

(** On the path that comes to the scanner, whether issues were found is
    what the returned mapping says. *)
Lemma scan_path_issues env ctx k rules tri incl tre excl tl s ri rx d :
  compile_paths env (include_paths k) = (tri, ri) →
  compile_paths env (exclude_paths k) = (tre, rx) →
  Finish env k (scan_result env k rules incl excl) tl s →
  inr d = scan_result env k rules incl excl →
  issues_found
    (banner ctx k ++ ConfigureRegexes (inr rules) :: tri ++ tre
     ++ scan_event env k rules incl excl :: tl)
  = found_issues d.
Proof.
  intros Hi Hx HF Hres.
  assert (∀ t, (∀ e, e ∈ t → scan_output e = None) →
               issues_found t = false) as Hnone.
  { intros t Ht. apply existsb_false_iff. intros e He. by rewrite (Ht e He). }
  unfold issues_found, banner. rewrite !existsb_app. cbn [existsb scan_output].
  rewrite !existsb_app. cbn [existsb].
  rewrite scan_event_output, <- Hres.
  fold (issues_found tri) (issues_found tre) (issues_found tl).
  rewrite (Hnone tri), (Hnone tre), (Hnone tl).
  - cbn [orb]. by rewrite orb_false_r.
  - intros e He. by destruct (finish_event _ _ _ _ _ _ HF He) as (_ & _ & _ & ? & _).
  - intros e He.
    by destruct (recompile_event _ _ (compile_paths_events _ _ _ _ Hx) He)
      as (_ & _ & ? & _).
  - intros e He.
    by destruct (recompile_event _ _ (compile_paths_events _ _ _ _ Hi) He)
      as (_ & _ & ? & _).
Qed.

(** C6, as the code has it.  When no exception leaves [main] uncaught,
    [main] ends the process through [ctx.exit], and the status it gives is
    not 0 exactly when a scanner call reported [found_issues] true or a
    validation error occurred (no detector, no source, a [ValueError] from
    the rules configuration, an empty rule set with regex checks on); it
    is 0 otherwise.  An exception that leaves [main] (any other exception
    of the rules configuration, a path pattern [re.compile] refuses, a
    failure of the scanner or of the clean-up) reaches no [ctx.exit]. *)
Theorem exit_status_nonzero_iff env ctx k :
  existsb is_uncaught_raise (main env ctx k).1 = false →
  ∃ code,
    outcome (main env ctx k) = Exit code
    ∧ (code ≠ 0 ↔
         issues_found (main env ctx k).1 = true
         ∨ validation_error env k = true).
Proof.
  rewrite <- (validation_error_reported env ctx k).
  destruct (main_run env ctx k) as (tr & s & -> & R).
  unfold outcome. cbn [fst snd]. intros Hraise.
  assert (∀ file t s', compile_paths env file = (t, inl s') →
                       existsb is_uncaught_raise t = true) as Hrefused.
  { intros file t s' Hc.
    rewrite (recompile_raise t) by (by eapply compile_paths_events).
    by apply compile_paths_raised in Hc as [_ ?]. }
  destruct R;
    try (exists 1; split; [done |]; split; [by right | done]);
    unfold banner in Hraise; rewrite ?existsb_app in Hraise;
    cbn [app existsb is_uncaught_raise orb] in Hraise;
    rewrite ?existsb_app in Hraise;
    cbn [app existsb is_uncaught_raise orb] in Hraise;
    try done;
    try (match goal with
         | Hi : compile_paths _ _ = (_, inl _) |- _ =>
             rewrite (Hrefused _ _ _ Hi), ?orb_true_r in Hraise
         end; done).
  assert (existsb is_err
            (banner ctx k ++ ConfigureRegexes (inr rules0) :: tri ++ tre
             ++ scan_event env k rules0 incl excl :: tl) = false) as Herr.
  { apply existsb_false_iff. intros e He. split_trace He;
      try match goal with
        | Hi : compile_paths _ _ = (?t, _), Hin : e ∈ ?t |- _ =>
            by destruct (recompile_event _ _ (compile_paths_events _ _ _ _ Hi) Hin)
              as (_ & ? & _)
        | HF : Finish _ _ _ ?t _, Hin : e ∈ ?t |- _ =>
            by destruct (finish_event _ _ _ _ _ _ HF Hin) as (_ & ? & _)
        end.
    unfold scan_event. by destruct (pre_commit k). }
  rewrite Herr.
  apply orb_false_iff in Hraise as [_ [_ Hraise]%orb_false_iff].
  apply orb_false_iff in Hraise as [Hscan Htl].
  match goal with HF : Finish _ _ _ _ _ |- _ => inversion HF; subst end.
  - exfalso. unfold scan_event, scan_result in *.
    destruct (pre_commit k);
      match goal with
      | H : inl _ = _ |- _ => by rewrite <- H in Hscan
      end.
  - by simpl in Htl.
  - exists (if found_issues d then 1 else 0). split; [done |].
    erewrite scan_path_issues by done.
    destruct (found_issues d); split; [by left | done | done | by intros [|]].
  - exists (if found_issues d then 1 else 0). split; [done |].
    erewrite scan_path_issues by done.
    destruct (found_issues d); split; [by left | done | done | by intros [|]].
Qed.

Lemma exit_status_nonzero_iff_witness :
  existsb is_uncaught_raise (main Sample.env Sample.ctx Sample.history).1
  = false
  ∧ outcome (main Sample.env Sample.ctx Sample.history) = Exit 1
  ∧ issues_found (main Sample.env Sample.ctx Sample.history).1 = true.
Proof.
  split; [reflexivity |].
  destruct (exit_status_nonzero_iff Sample.env Sample.ctx Sample.history
              eq_refl) as (code & Hcode & _).
  split; [| reflexivity].
  rewrite Hcode. by injection Hcode as <-.
Defined.

(** C6, as stated, fails: the include file holds the one line "(" followed
    by a line feed.  No scan result exists and no validation error
    occurred, so the status should be 0; but [re.compile] refuses the
    pattern, its exception leaves [main], and [ctx.exit(0)] is never
    reached (the interpreter prints the traceback of the [re.error] and
    ends with status 1). *)
Lemma exit_status_counterexample :
  ¬ (issues_found (main Sample.env Sample.ctx Sample.paren_line).1 = false →
     validation_error Sample.env Sample.paren_line = false →
     outcome (main Sample.env Sample.ctx Sample.paren_line) = Exit 0).
Proof. intros H. by specialize (H eq_refl eq_refl). Qed.

(** ** The unterminated last line *)

(** A set of one element yields that element, whatever the order. *)
Lemma iterate_singleton (o : SetIteration) (a : string) : iterate o [a] = [a].
Proof.
  pose proof (iterate_NoDup o [a]) as Hnd.
  pose proof (iterate_elem o [a]) as Hel.
  destruct (iterate o [a]) as [|b l].
  - assert (a ∈ @nil string) as ?%elem_of_nil
      by (apply Hel, list_elem_of_here).
    done.
  - assert (b = a) as ->
      by (apply list_elem_of_singleton, Hel, list_elem_of_here).
    destruct l as [|c l]; [done |].
    assert (c = a) as ->.
    { apply list_elem_of_singleton, Hel.
      apply list_elem_of_further, list_elem_of_here. }
    apply NoDup_cons in Hnd as [Hnotin _].
    destruct Hnotin. apply list_elem_of_here.
Qed.

(** A pattern file whose whole text is an opening parenthesis, with no
    line feed after it, compiles to nothing: the one character is dropped
    and the empty text is skipped, so [re.compile] is never asked. *)
Lemma lone_paren_compiles_to_nothing env f :
  file_text f = "(" → compile_paths env (Some f) = ([], inr []).
Proof.
  intros Htext.
  assert (pattern_set env f = [""]) as Hset.
  { unfold pattern_set, lines. rewrite Htext.
    change ((λ l, Py.lstrip (Py.drop_last l)) <$> Py.readlines "(")
      with [""].
    apply iterate_singleton. }
  unfold compile_paths. rewrite Hset. cbn [for_each].
  by rewrite compile_pattern_skip.
Qed.

(** C4, at the input where the code departs from it.  The include file
    holds the single invalid pattern "(" and no final line feed; the
    request is otherwise valid.  No pattern compilation fails, and the
    history scan is entered with an empty inclusion list. *)
Theorem unterminated_invalid_pattern_is_scanned env ctx k f rules ex :
  compile_error env "(" = Some ex →
  include_paths k = Some f → file_text f = "(" →
  exclude_paths k = None →
  pre_commit k = false →
  configure_regexes_from_args env k (regexes env) = inr rules →
  existsb is_err (main env ctx k).1 = false →
  existsb is_compile_failure (main env ctx k).1 = false
  ∧ List.filter is_scan (main env ctx k).1
    = [FindStrings (strings_args k rules [] [])
                   (find_strings env (strings_args k rules [] []))].
Proof.
  intros _ Hf Htext Hx Hp Hc. fold (configured env k) in Hc.
  destruct (main_run env ctx k) as (tr & s & -> & R). cbn [fst].
  intros Herr.
  pose proof (lone_paren_compiles_to_nothing env f Htext) as Hincl.
  destruct R; eval_existsb Herr; try done; try congruence;
    repeat match goal with
      | H : compile_paths env (exclude_paths k) = (_, inl _) |- _ =>
          by rewrite Hx in H
      | H : compile_paths env (include_paths k) = (_, inl _) |- _ =>
          by rewrite Hf, Hincl in H
      | H : compile_paths env (include_paths k) = _ |- _ =>
          rewrite Hf, Hincl in H; injection H as <- <-
      | H : compile_paths env (exclude_paths k) = _ |- _ =>
          rewrite Hx in H; cbn [compile_paths ret] in H; injection H as <- <-
      | H : configured env k = inr _ |- _ =>
          rewrite Hc in H; injection H as <-
      end; try done.
  match goal with HF : Finish _ _ _ _ _ |- _ => rename HF into HF' end.
  split.
  - unfold banner. cbn [app existsb is_compile_failure orb].
    assert (is_compile_failure (scan_event env k rules [] []) = false) as ->
      by (unfold scan_event; by destruct (pre_commit k)).
    apply existsb_false_iff. intros e He.
    by destruct (finish_event _ _ _ _ _ _ HF' He) as (_ & _ & ? & _).
  - erewrite (scan_path_calls env k ctx rules [] [] [] [] _ (inr []) _);
      [| by rewrite Hf, Hincl | by rewrite Hx | done].
    unfold scan_event. by rewrite Hp.
Qed.

Lemma unterminated_invalid_pattern_is_scanned_witness :
  compile_error Sample.env "("
  = Some (re_error_exn "missing ), unterminated subpattern at position 0") ∧
  existsb is_err (main Sample.env Sample.ctx Sample.lone_paren).1 = false ∧
  existsb is_compile_failure (main Sample.env Sample.ctx Sample.lone_paren).1
  = false ∧
  List.filter is_scan (main Sample.env Sample.ctx Sample.lone_paren).1
  = [FindStrings (strings_args Sample.lone_paren (regexes Sample.env) [] [])
       (find_strings Sample.env
          (strings_args Sample.lone_paren (regexes Sample.env) [] []))].
Proof.
  split; [reflexivity |]. split; [reflexivity |].
  eapply (unterminated_invalid_pattern_is_scanned
            Sample.env Sample.ctx Sample.lone_paren);
    reflexivity.
Defined.

(** The same pattern followed by a line feed is compiled and refused, and
    the scanner is not entered. *)
Example terminated_invalid_pattern_is_refused :
  existsb is_compile_failure (main Sample.env Sample.ctx Sample.paren_line).1
  = true ∧
  existsb is_scan (main Sample.env Sample.ctx Sample.paren_line).1 = false ∧
  outcome (main Sample.env Sample.ctx Sample.paren_line)
  = Uncaught (re_error_exn "missing ), unterminated subpattern at position 0").
Proof. by split_and!. Qed.

(** * Further properties of [main] *)

(** ** More on the events of a path *)

Lemma recompile_kind tr e :
  Forall (λ e, is_recompile e = true) tr → e ∈ tr → is_recompile e = true.
Proof. intros Hall He. rewrite Forall_forall in Hall. by apply Hall. Qed.

Lemma finish_kind env k r tl s e :
  Finish env k r tl s → e ∈ tl → is_clean e = true ∨ is_printed e = true.
Proof.
  intros [e'|d e' _ _|d _ _|d _]; try (by intros ?%elem_of_nil);
    try (intros ->%list_elem_of_singleton; by left).
  unfold report. destruct (Py.truthy _); [| by intros ?%elem_of_nil].
  intros ->%list_elem_of_singleton. by right.
Qed.

Lemma scan_event_kind env k rules incl excl :
  is_err (scan_event env k rules incl excl) = false ∧
  is_recompile (scan_event env k rules incl excl) = false ∧
  is_clean (scan_event env k rules incl excl) = false ∧
  is_printed (scan_event env k rules incl excl) = false ∧
  is_configure (scan_event env k rules incl excl) = false.
Proof. unfold scan_event. by destruct (pre_commit k). Qed.

Lemma filter_recompile (f : Event → bool) tr :
  (∀ e, is_recompile e = true → f e = false) →
  Forall (λ e, is_recompile e = true) tr → List.filter f tr = [].
Proof.
  intros Hf Hall. apply filter_none. intros e He.
  by apply Hf, (recompile_kind tr).
Qed.

(** Membership in the trace of a path, with the equalities it yields. *)
Ltac split_events H :=
  unfold banner in H;
  repeat (rewrite elem_of_app in H || rewrite elem_of_cons in H
          || rewrite elem_of_nil in H);
  destruct_or?; simplify_eq; try done.

(** An event of a pattern loop is no event of another kind. *)
Ltac by_kind :=
  match goal with
  | Hi : compile_paths _ _ = (?t, _), Hin : ?e ∈ ?t |- _ =>
      pose proof (recompile_kind _ _ (compile_paths_events _ _ _ _ Hi) Hin);
      (done || by destruct e)
  | HF : Finish _ _ _ ?t _, Hin : ?e ∈ ?t |- _ =>
      destruct (finish_kind _ _ _ _ _ _ HF Hin); (done || by destruct e)
  end.

(** ** Errors of the rules configuration *)

(** X1.  When the detector and source checks pass and the rules
    configuration raises [ValueError], [main] reports the text of the
    exception on standard error and leaves with status 1; this is the
    whole run: no pattern is compiled and no scanner is entered. *)
Theorem rules_value_error_reported env ctx k msg :
  Py.any [entropy k; regex k] = true →
  Py.any [pre_commit k; Py.truthy_str (repo_path k);
          Py.truthy_str (git_url k)] = true →
  configure_regexes_from_args env k (regexes env) = inl (ValueError msg) →
  main env ctx k
  = ([Echo (PAttrs (dir ctx)); Echo (PKwargs k);
      ConfigureRegexes (inl (ValueError msg)); Err msg], inl (Exit 1)).
Proof.
  intros Hd Hs Hc. fold (detectors k) in Hd. fold (sources k) in Hs.
  fold (configured env k) in Hc.
  destruct (main_run env ctx k) as (tr & s & -> & R).
  destruct R; try congruence.
  match goal with H : configured env k = _ |- _ => rewrite Hc in H; by simplify_eq end.
Qed.

Lemma rules_value_error_reported_witness :
  main Sample.env_rules_error Sample.ctx Sample.history
  = ([Echo (PAttrs ["exit"; "params"]); Echo (PKwargs Sample.history);
      ConfigureRegexes (inl (ValueError "Error reading rules file"));
      Err "Error reading rules file"], inl (Exit 1)).
Proof.
  apply (rules_value_error_reported
           Sample.env_rules_error Sample.ctx Sample.history); reflexivity.
Defined.

(** X2.  Any other exception of the rules configuration is not caught:
    nothing is reported through [err], [ctx.exit] is not reached and the
    exception leaves [main]. *)
Theorem rules_other_exception_propagates env ctx k cls msg :
  Py.any [entropy k; regex k] = true →
  Py.any [pre_commit k; Py.truthy_str (repo_path k);
          Py.truthy_str (git_url k)] = true →
  configure_regexes_from_args env k (regexes env)
  = inl (OtherException cls msg) →
  main env ctx k
  = ([Echo (PAttrs (dir ctx)); Echo (PKwargs k);
      ConfigureRegexes (inl (OtherException cls msg))],
     inl (Uncaught (OtherException cls msg))).
Proof.
  intros Hd Hs Hc. fold (detectors k) in Hd. fold (sources k) in Hs.
  fold (configured env k) in Hc.
  destruct (main_run env ctx k) as (tr & s & -> & R).
  destruct R; try congruence.
  match goal with H : configured env k = _ |- _ => rewrite Hc in H; by simplify_eq end.
Qed.

Lemma rules_other_exception_propagates_witness :
  main Sample.env_rules_raise Sample.ctx Sample.history
  = ([Echo (PAttrs ["exit"; "params"]); Echo (PKwargs Sample.history);
      ConfigureRegexes (inl (OtherException "KeyError" "rules"))],
     inl (Uncaught (OtherException "KeyError" "rules"))).
Proof.
  apply (rules_other_exception_propagates
           Sample.env_rules_raise Sample.ctx Sample.history); reflexivity.
Defined.

(** ** What an error message means *)

(** X3.  Every message [main] writes with [err] arises in one of four
    situations, which exclude one another and each fix the message: no
    detector enabled; a detector but no source; a detector, a source and a
    [ValueError] of the rules configuration, whose text is the message; a
    detector, a source, regex checks requested and an empty rule set. *)
Theorem error_message_cause env ctx k i msg :
  (main env ctx k).1 !! i = Some (Err msg) →
  (msg = "No analysis requested." ∧ Py.any [entropy k; regex k] = false)
  ∨ (msg = "You must specify one of --pre-commit, --repo-path, or git_url."
     ∧ Py.any [entropy k; regex k] = true
     ∧ Py.any [pre_commit k; Py.truthy_str (repo_path k);
               Py.truthy_str (git_url k)] = false)
  ∨ (Py.any [entropy k; regex k] = true
     ∧ Py.any [pre_commit k; Py.truthy_str (repo_path k);
               Py.truthy_str (git_url k)] = true
     ∧ configure_regexes_from_args env k (regexes env)
       = inl (ValueError msg))
  ∨ (msg = "Regex checks requested, but no regexes found."
     ∧ Py.any [entropy k; regex k] = true
     ∧ Py.any [pre_commit k; Py.truthy_str (repo_path k);
               Py.truthy_str (git_url k)] = true
     ∧ regex k = true
     ∧ configure_regexes_from_args env k (regexes env) = inr ∅).
Proof.
  intros He%list_elem_of_lookup_2. revert He.
  destruct (main_run env ctx k) as (tr & s & -> & R). cbn [fst]. intros He.
  destruct R; split_events He; try by_kind;
    unfold detectors, sources, configured in *.
  - by left.
  - right. by left.
  - right. right. by left.
  - right. right. by right.
  - exfalso.
    match goal with
    | H : Err _ = scan_event env k ?r ?a ?b |- _ =>
        destruct (scan_event_kind env k r a b) as (Hk & _);
        rewrite <- H in Hk
    end.
    done.
Qed.

Lemma error_message_cause_witness :
  (main Sample.env_no_rules Sample.ctx Sample.history).1 !! 3%nat
  = Some (Err "Regex checks requested, but no regexes found.")
  ∧ regex Sample.history = true
  ∧ configure_regexes_from_args Sample.env_no_rules Sample.history
      (regexes Sample.env_no_rules) = inr ∅.
Proof.
  split; [reflexivity |].
  destruct (error_message_cause Sample.env_no_rules Sample.ctx Sample.history
              3 "Regex checks requested, but no regexes found." eq_refl)
    as [[? _] | [[? _] | [(_ & _ & ?) | (_ & _ & _ & ?)]]]; done.
Defined.

(** X4.  An error message ends the run: it is the last event, the only
    message, the status is 1, and neither [re.compile] nor a scanner nor
    the clean-up was called before it. *)
Theorem error_ends_run env ctx k i msg :
  (main env ctx k).1 !! i = Some (Err msg) →
  last (main env ctx k).1 = Some (Err msg)
  ∧ List.filter is_err (main env ctx k).1 = [Err msg]
  ∧ outcome (main env ctx k) = Exit 1
  ∧ existsb is_recompile (main env ctx k).1 = false
  ∧ existsb is_scan (main env ctx k).1 = false
  ∧ existsb is_clean (main env ctx k).1 = false.
Proof.
  intros He%list_elem_of_lookup_2. revert He.
  destruct (main_run env ctx k) as (tr & s & -> & R).
  unfold outcome. cbn [fst snd]. intros He.
  destruct R; split_events He; try by_kind.
  exfalso.
  match goal with
  | H : Err _ = scan_event env k ?r ?a ?b |- _ =>
      destruct (scan_event_kind env k r a b) as (Hk & _);
      rewrite <- H in Hk
  end.
  done.
Qed.

Lemma error_ends_run_witness :
  (main Sample.env Sample.ctx Sample.no_source).1 !! 2%nat
  = Some (Err "You must specify one of --pre-commit, --repo-path, or git_url.")
  ∧ last (main Sample.env Sample.ctx Sample.no_source).1
    = Some (Err "You must specify one of --pre-commit, --repo-path, or git_url.")
  ∧ outcome (main Sample.env Sample.ctx Sample.no_source) = Exit 1.
Proof.
  split; [reflexivity |].
  destruct (error_ends_run Sample.env Sample.ctx Sample.no_source 2 _ eq_refl)
    as (? & _ & ? & _).
  done.
Defined.

(** ** The scanner call *)

(** The scanner calls of a path: none, or the one of lines 93-118. *)
Lemma run_scans env ctx k tr s :
  Run env ctx k tr s →
  List.filter is_scan tr = []
  ∨ ∃ rules incl excl,
      List.filter is_scan tr = [scan_event env k rules incl excl].
Proof.
  intros R.
  destruct R; try (by left);
    try (left; apply filter_none; intros e He; split_events He; by_kind).
  right. eexists _, _, _. by eapply scan_path_calls.
Qed.

(** X5.  A request that passes the three checks and whose kept pattern
    texts all compile reaches the scanner: there is exactly one scanner
    call, [find_staged] or [find_strings] by the pre-commit flag, with the
    arguments of lines 94-103 or 105-118.  It receives the options
    unchanged, the configured rules and, for each pattern option, the kept
    texts of its file, compiled, each once, in the order the set yielded
    them.  No error is reported on the way. *)
Theorem valid_request_is_scanned env ctx k rules :
  Py.any [entropy k; regex k] = true →
  Py.any [pre_commit k; Py.truthy_str (repo_path k);
          Py.truthy_str (git_url k)] = true →
  configure_regexes_from_args env k (regexes env) = inr rules →
  regex k && bool_decide (rules = ∅) = false →
  compiles env (include_paths k) →
  compiles env (exclude_paths k) →
  ∃ incl excl,
    compiled_from (include_paths k) incl
    ∧ compiled_from (exclude_paths k) excl
    ∧ List.filter is_scan (main env ctx k).1
      = [if pre_commit k
         then
           let a := {| st_repo_path := repo_path k;
                       st_json := json k;
                       st_regex := regex k;
                       st_entropy := entropy k;
                       st_custom_regexes := rules;
                       st_suppress_output := false;
                       st_path_inclusions := incl;
                       st_path_exclusions := excl |} in
           FindStaged a (find_staged env a)
         else
           let a := {| fs_git_url := git_url k;
                       fs_since_commit := since_commit k;
                       fs_max_depth := max_depth k;
                       fs_json := json k;
                       fs_regex := regex k;
                       fs_entropy := entropy k;
                       fs_custom_regexes := rules;
                       fs_suppress_output := false;
                       fs_branch := branch k;
                       fs_repo_path := repo_path k;
                       fs_path_inclusions := incl;
                       fs_path_exclusions := excl |} in
           FindStrings a (find_strings env a)]
    ∧ existsb is_err (main env ctx k).1 = false.
Proof.
  intros Hd Hs Hc Hr Hincl Hexcl.
  destruct (valid_request_run env ctx k rules Hd Hs Hc Hr Hincl Hexcl)
    as [Hscan Herr].
  exists (Compiled <$> filter kept (patterns_of env (include_paths k))),
         (Compiled <$> filter kept (patterns_of env (exclude_paths k))).
  split; [apply compiled_from_patterns |].
  split; [apply compiled_from_patterns |].
  split; [| exact Herr].
  rewrite Hscan. unfold scan_event. by destruct (pre_commit k).
Qed.

Lemma valid_request_is_scanned_witness :
  compiles Sample.env (include_paths Sample.filtered)
  ∧ compiles Sample.env (exclude_paths Sample.filtered)
  ∧ ∃ a,
      List.filter is_scan (main Sample.env Sample.ctx Sample.filtered).1
      = [FindStrings a (find_strings Sample.env a)]
      ∧ fs_git_url a = Some "https://example.org/repo.git"
      ∧ fs_max_depth a = 1000000
      ∧ fs_custom_regexes a = regexes Sample.env
      ∧ compiled_from (include_paths Sample.filtered) (fs_path_inclusions a)
      ∧ fs_path_exclusions a = [].
Proof.
  assert (compiles Sample.env (include_paths Sample.filtered)) as Hincl.
  { intros f l [= <-] Hl%list_elem_of_In _. vm_compute in Hl.
    destruct Hl as [<- | [<- | [<- | [<- | [<- | []]]]]]; reflexivity. }
  assert (compiles Sample.env (exclude_paths Sample.filtered)) as Hexcl
    by (by intros f l [=]).
  split; [exact Hincl |]. split; [exact Hexcl |].
  destruct (valid_request_is_scanned Sample.env Sample.ctx Sample.filtered
              (regexes Sample.env) eq_refl eq_refl eq_refl eq_refl Hincl Hexcl)
    as (incl & excl & Hi & [_ Hx] & Hscan & _).
  assert (excl = []) as ->.
  { destruct excl as [|c cs]; [done |].
    destruct (proj1 (Hx c) (list_elem_of_here _ _)) as (f & l & [=] & _). }
  eexists. split; [exact Hscan |]. by split_and!.
Defined.

(** X6.  Once a scanner call has returned a mapping and the clean-up, if
    requested, has returned, the status is 1 when [found_issues] is
    present and true in the mapping, and 0 otherwise. *)
Theorem exit_status_mirrors_found_issues env ctx k i e d :
  (main env ctx k).1 !! i = Some e →
  scan_output e = Some d →
  existsb is_clean_failure (main env ctx k).1 = false →
  outcome (main env ctx k)
  = Exit (if Py.truthy (default (Py.VBool false) (d !! "found_issues"))
          then 1 else 0).
Proof.
  intros He%list_elem_of_lookup_2 Hd.
  destruct (main_run env ctx k) as (tr & s & Heq & R).
  rewrite Heq in He |- *. unfold outcome. cbn [fst snd] in *. intros Hclean.
  assert (is_scan e = true) as Hscan by (by destruct e as [| | | | |? []|? []|]).
  destruct (run_scan_inv _ _ _ _ _ _ R He Hscan)
    as (rules & tri & incl & tre & excl & tl
        & _ & _ & _ & _ & Hi & Hx & HF & -> & ->).
  rewrite scan_event_output in Hd.
  destruct (scan_result env k rules incl excl) as [ex|d'] eqn:Hres; [done |].
  injection Hd as ->.
  inversion HF; subst; try done.
  eval_existsb Hclean. by rewrite !orb_true_r in Hclean.
Qed.

Lemma exit_status_mirrors_found_issues_witness :
  (∃ a, (main Sample.env Sample.ctx Sample.cleaned).1 !! 3%nat
        = Some (FindStrings a
                  (inr {[ "found_issues" := Py.VBool true;
                          "issues_path" := Py.VStr "/tmp/tartufo" ]})))
  ∧ existsb is_clean_failure (main Sample.env Sample.ctx Sample.cleaned).1
    = false
  ∧ outcome (main Sample.env Sample.ctx Sample.cleaned) = Exit 1.
Proof.
  split; [by eexists |]. split; [reflexivity |].
  erewrite (exit_status_mirrors_found_issues
              Sample.env Sample.ctx Sample.cleaned 3 _
              {[ "found_issues" := Py.VBool true;
                 "issues_path" := Py.VStr "/tmp/tartufo" ]});
    reflexivity.
Defined.

(** X7.  A run enters a scanner at most once, and which one is decided by
    the pre-commit flag alone: whenever a scanner is entered it is
    [find_staged] if the flag is set and [find_strings] if it is not. *)
Theorem scanner_follows_flag env ctx k :
  (length (List.filter is_scan (main env ctx k).1) ≤ 1)%nat
  ∧ existsb is_find_staged (main env ctx k).1
    = existsb is_scan (main env ctx k).1 && pre_commit k
  ∧ existsb is_find_strings (main env ctx k).1
    = existsb is_scan (main env ctx k).1 && negb (pre_commit k).
Proof.
  destruct (main_run env ctx k) as (tr & s & -> & R). cbn [fst].
  rewrite <- (existsb_filter is_find_staged is_scan tr),
          <- (existsb_filter is_find_strings is_scan tr),
          <- (existsb_filter is_scan is_scan tr);
    [| done | by intros []; simpl; auto using orb_true_r
       | by intros []; simpl; auto ].
  destruct (run_scans _ _ _ _ _ R) as [-> | (rules & incl & excl & ->)];
    [by split_and!; [simpl; lia | ..] |].
  unfold scan_event. by destruct (pre_commit k); split_and!; [simpl; lia | ..].
Qed.

(** ** After the scanner: clean-up or report *)

(** On the path that comes to the scanner, clean-up and report events are
    found after the scanner call only. *)
Lemma scan_path_tail (f : Event → bool) env ctx k rules tri incl tre excl tl ri rx :
  (∀ e, f e = true → is_clean e = true ∨ is_printed e = true) →
  compile_paths env (include_paths k) = (tri, ri) →
  compile_paths env (exclude_paths k) = (tre, rx) →
  List.filter f
    (banner ctx k ++ ConfigureRegexes (inr rules) :: tri ++ tre
     ++ scan_event env k rules incl excl :: tl)
  = List.filter f tl.
Proof.
  intros Hf Hi Hx.
  assert (∀ e, is_clean e = false → is_printed e = false → f e = false) as Hno.
  { intros e Hc Hp. destruct (f e) eqn:He; [| done].
    destruct (Hf e He); congruence. }
  unfold banner. rewrite !List.filter_app. cbn [List.filter].
  rewrite !Hno by done. rewrite !List.filter_app. cbn [List.filter].
  destruct (scan_event_kind env k rules incl excl) as (_ & _ & Hc & Hp & _).
  rewrite (Hno (scan_event env k rules incl excl)) by done.
  rewrite (filter_recompile f tri), (filter_recompile f tre); [done | ..];
    try (by eapply compile_paths_events);
    intros [] ?; by apply Hno.
Qed.

(** X8.  Once a scanner call has returned a mapping, the clean-up is
    called exactly when [--cleanup] is set, once, and on that very
    mapping. *)
Theorem clean_up_called_with_result env ctx k i e d :
  (main env ctx k).1 !! i = Some e →
  scan_output e = Some d →
  List.filter is_clean (main env ctx k).1
  = if cleanup k then [CleanOutputs d (clean_outputs env d)] else [].
Proof.
  intros He%list_elem_of_lookup_2 Hd. revert He.
  destruct (main_run env ctx k) as (tr & s & -> & R). cbn [fst]. intros He.
  assert (is_scan e = true) as Hscan by (by destruct e as [| | | | |? []|? []|]).
  destruct (run_scan_inv _ _ _ _ _ _ R He Hscan)
    as (rules & tri & incl & tre & excl & tl
        & _ & _ & _ & _ & Hi & Hx & HF & -> & ->).
  rewrite scan_event_output in Hd.
  destruct (scan_result env k rules incl excl) as [ex|d'] eqn:Hres; [done |].
  injection Hd as ->.
  erewrite scan_path_tail; [| by intros []; auto | done..].
  inversion HF as [|? ? Hc Hr|? Hc Hr|? Hc]; subst; rewrite Hc, ?Hr; try done.
  unfold report. by destruct (Py.truthy _).
Qed.

Lemma clean_up_called_with_result_witness :
  (∃ a, (main Sample.env Sample.ctx Sample.cleaned).1 !! 3%nat
        = Some (FindStrings a
                  (inr {[ "found_issues" := Py.VBool true;
                          "issues_path" := Py.VStr "/tmp/tartufo" ]})))
  ∧ List.filter is_clean (main Sample.env Sample.ctx Sample.cleaned).1
    = [CleanOutputs {[ "found_issues" := Py.VBool true;
                       "issues_path" := Py.VStr "/tmp/tartufo" ]} (inr tt)].
Proof.
  split; [by eexists |].
  erewrite (clean_up_called_with_result
              Sample.env Sample.ctx Sample.cleaned 3 _
              {[ "found_issues" := Py.VBool true;
                 "issues_path" := Py.VStr "/tmp/tartufo" ]});
    reflexivity.
Defined.

(** X9.  Once a scanner call has returned a mapping, the line "Results
    have been saved in ..." is printed exactly when [--cleanup] is not set
    and the mapping holds a true [issues_path], and it names that path. *)
Theorem results_path_printed env ctx k i e d :
  (main env ctx k).1 !! i = Some e →
  scan_output e = Some d →
  List.filter is_printed (main env ctx k).1
  = if negb (cleanup k) && Py.truthy (default Py.VNone (d !! "issues_path"))
    then [Printed ("Results have been saved in "
                   +:+ Py.str (default Py.VNone (d !! "issues_path")))]
    else [].
Proof.
  intros He%list_elem_of_lookup_2 Hd. revert He.
  destruct (main_run env ctx k) as (tr & s & -> & R). cbn [fst]. intros He.
  assert (is_scan e = true) as Hscan by (by destruct e as [| | | | |? []|? []|]).
  destruct (run_scan_inv _ _ _ _ _ _ R He Hscan)
    as (rules & tri & incl & tre & excl & tl
        & _ & _ & _ & _ & Hi & Hx & HF & -> & ->).
  rewrite scan_event_output in Hd.
  destruct (scan_result env k rules incl excl) as [ex|d'] eqn:Hres; [done |].
  injection Hd as ->.
  erewrite scan_path_tail; [| by intros []; auto | done..].
  inversion HF as [|? ? Hc Hr|? Hc Hr|? Hc]; subst; rewrite Hc; try done.
  unfold report. cbn [negb andb]. by destruct (Py.truthy _).
Qed.

Lemma results_path_printed_witness :
  (∃ a, (main Sample.env Sample.ctx Sample.history).1 !! 3%nat
        = Some (FindStrings a
                  (inr {[ "found_issues" := Py.VBool true;
                          "issues_path" := Py.VStr "/tmp/tartufo" ]})))
  ∧ List.filter is_printed (main Sample.env Sample.ctx Sample.history).1
    = [Printed "Results have been saved in /tmp/tartufo"].
Proof.
  split; [by eexists |].
  erewrite (results_path_printed
              Sample.env Sample.ctx Sample.history 3 _
              {[ "found_issues" := Py.VBool true;
                 "issues_path" := Py.VStr "/tmp/tartufo" ]});
    reflexivity.
Defined.

(** X10.  Unless a scanner call returned a mapping, nothing is cleaned up
    and no results path is printed. *)
Theorem no_result_no_clean_up env ctx k :
  existsb (fun e => bool_decide (is_Some (scan_output e))) (main env ctx k).1
  = false →
  existsb is_clean (main env ctx k).1 = false
  ∧ existsb is_printed (main env ctx k).1 = false.
Proof.
  destruct (main_run env ctx k) as (tr & s & -> & R). cbn [fst].
  intros Hnone.
  rewrite <- (existsb_filter is_clean (fun e => is_clean e || is_printed e) tr),
          <- (existsb_filter is_printed (fun e => is_clean e || is_printed e) tr)
    by (intros e ->; by rewrite ?orb_true_r).
  assert (List.filter (fun e => is_clean e || is_printed e) tr = []) as ->;
    [| done].
  destruct R; try done;
    try (apply filter_none; intros e He; split_events He; by_kind).
  erewrite scan_path_tail;
    [| by intros e [?|?]%orb_true_iff; auto | done..].
  match goal with HF : Finish _ _ _ _ _ |- _ => inversion HF as [| | |]; subst end;
    try done; exfalso;
    rewrite existsb_false_iff in Hnone;
    match goal with
    | H : inr ?d = scan_result env k ?r ?a ?b |- _ =>
        specialize (Hnone (scan_event env k r a b) (elem_of_scan_path _ _ _ _ _ _));
        rewrite scan_event_output, <- H in Hnone
    end;
    by apply bool_decide_eq_false in Hnone; destruct Hnone.
Qed.

Lemma no_result_no_clean_up_witness :
  existsb (fun e => bool_decide (is_Some (scan_output e)))
          (main Sample.env Sample.ctx Sample.paren_line).1 = false
  ∧ existsb is_clean (main Sample.env Sample.ctx Sample.paren_line).1 = false
  ∧ existsb is_printed (main Sample.env Sample.ctx Sample.paren_line).1 = false.
Proof.
  split; [reflexivity |].
  apply (no_result_no_clean_up Sample.env Sample.ctx Sample.paren_line).
  reflexivity.
Defined.

(** ** The calls to [re.compile] *)

(** Every call of the loop is for a kept text of the list, and its result
    is the verdict of [re.compile]. *)
Lemma loop_call env ps acc tr r p res :
  for_each (compile_pattern env) ps acc = (tr, r) →
  ReCompile p res ∈ tr →
  p ∈ ps ∧ kept p = true ∧
  res = match compile_error env p with
        | Some ex => inl ex
        | None => inr (Compiled p)
        end.
Proof.
  revert acc tr r. induction ps as [|q ps IH]; intros acc tr r.
  - intros [= <- <-] ?%elem_of_nil. done.
  - cbn [for_each]. destruct (kept q) eqn:Hk.
    + destruct (compile_error env q) as [msg|] eqn:He.
      * rewrite (compile_pattern_raise _ _ _ msg) by done.
        intros [= <- <-] [= -> ->]%list_elem_of_singleton.
        rewrite He. split_and!; [apply list_elem_of_here | done..].
      * rewrite compile_pattern_append by done. cbn [bind].
        destruct (for_each _ ps _) as [tr' r'] eqn:Hrest.
        intros [= <- <-] [[= -> ->] | Hin]%elem_of_cons.
        -- rewrite He. split_and!; [apply list_elem_of_here | done..].
        -- destruct (IH _ _ _ Hrest Hin) as (? & ? & ?).
           split_and!; [by apply list_elem_of_further | done..].
    + rewrite compile_pattern_skip by done. cbn [bind].
      destruct (for_each _ ps _) as [tr' r'] eqn:Hrest.
      intros [= <- <-] Hin.
      destruct (IH _ _ _ Hrest Hin) as (? & ? & ?).
      split_and!; [by apply list_elem_of_further | done..].
Qed.

(** A refused text is the last call of the loop, the only refusal, and
    its exception is what the loop ends with. *)
Lemma loop_refusal env ps acc tr r p ex :
  for_each (compile_pattern env) ps acc = (tr, r) →
  ReCompile p (inl ex) ∈ tr →
  ∃ pre, tr = pre ++ [ReCompile p (inl ex)] ∧
         List.filter is_compile_failure pre = [] ∧
         r = inl (Uncaught ex).
Proof.
  revert acc tr r. induction ps as [|q ps IH]; intros acc tr r.
  - intros [= <- <-] ?%elem_of_nil. done.
  - cbn [for_each]. destruct (kept q) eqn:Hk.
    + destruct (compile_error env q) as [msg|] eqn:He.
      * rewrite (compile_pattern_raise _ _ _ msg) by done.
        intros [= <- <-] [= -> ->]%list_elem_of_singleton. by exists [].
      * rewrite compile_pattern_append by done. cbn [bind].
        destruct (for_each _ ps _) as [tr' r'] eqn:Hrest.
        intros [= <- <-] [[=] | Hin]%elem_of_cons.
        destruct (IH _ _ _ Hrest Hin) as (pre & -> & Hpre & ->).
        exists (ReCompile q (inr (Compiled q)) :: pre). by split_and!.
    + rewrite compile_pattern_skip by done. cbn [bind].
      destruct (for_each _ ps _) as [tr' r'] eqn:Hrest.
      intros [= <- <-] Hin.
      destruct (IH _ _ _ Hrest Hin) as (pre & -> & Hpre & ->).
      by exists pre.
Qed.

Lemma compile_paths_call env file tr r p res :
  compile_paths env file = (tr, r) → ReCompile p res ∈ tr →
  p ∈ patterns_of env file ∧ kept p = true ∧
  res = match compile_error env p with
        | Some ex => inl ex
        | None => inr (Compiled p)
        end.
Proof.
  destruct file as [f|]; [apply loop_call |].
  intros [= <- <-] ?%elem_of_nil. done.
Qed.

Lemma compile_paths_refusal env file tr r p ex :
  compile_paths env file = (tr, r) → ReCompile p (inl ex) ∈ tr →
  ∃ pre, tr = pre ++ [ReCompile p (inl ex)] ∧
         List.filter is_compile_failure pre = [] ∧
         r = inl (Uncaught ex).
Proof.
  destruct file as [f|]; [apply loop_refusal |].
  intros [= <- <-] ?%elem_of_nil. done.
Qed.

Lemma filter_no_failure tr :
  existsb is_compile_failure tr = false →
  List.filter is_compile_failure tr = [].
Proof. intros H. apply filter_none. by apply existsb_false_iff. Qed.

(** X11.  The first pattern [re.compile] refuses ends the run: the failed
    call is the last event and the only failure, the exception it raised
    leaves [main] uncaught, and no further pattern, of either file, is
    looked at. *)
Theorem refused_pattern_ends_run env ctx k i p ex :
  (main env ctx k).1 !! i = Some (ReCompile p (inl ex)) →
  last (main env ctx k).1 = Some (ReCompile p (inl ex))
  ∧ List.filter is_compile_failure (main env ctx k).1
    = [ReCompile p (inl ex)]
  ∧ outcome (main env ctx k) = Uncaught ex
  ∧ compile_error env p = Some ex.
Proof.
  intros He%list_elem_of_lookup_2. revert He.
  destruct (main_run env ctx k) as (tr & s & -> & R).
  unfold outcome. cbn [fst snd]. intros He.
  destruct R; split_events He; try by_kind.
  - match goal with
    | Hi : compile_paths env (include_paths k) = _ |- _ =>
        destruct (compile_paths_call _ _ _ _ _ _ Hi He) as (_ & _ & Hres);
        destruct (compile_paths_refusal _ _ _ _ _ _ Hi He)
          as (pre & -> & Hpre & [= ->])
    end.
    split_and!; [| | done |].
    + by rewrite app_comm_cons, app_assoc, last_snoc.
    + unfold banner. cbn [app List.filter is_compile_failure].
      by rewrite List.filter_app, Hpre.
    + destruct (compile_error env p) as [ex'|]; [| done].
      by injection Hres as ->.
  - match goal with
    | Hi : compile_paths env (include_paths k) = _ |- _ =>
        apply compile_paths_ok in Hi as [_ Hi];
        rewrite existsb_false_iff in Hi; by specialize (Hi _ He)
    end.
  - match goal with
    | Hi : compile_paths env (include_paths k) = _,
      Hx : compile_paths env (exclude_paths k) = _ |- _ =>
        destruct (compile_paths_call _ _ _ _ _ _ Hx He) as (_ & _ & Hres);
        destruct (compile_paths_refusal _ _ _ _ _ _ Hx He)
          as (pre & -> & Hpre & [= ->]);
        pose proof (compile_paths_ok _ _ _ _ Hi) as [_ Hquiet%filter_no_failure]
    end.
    split_and!; [| | done |].
    + by rewrite app_comm_cons, !app_assoc, last_snoc.
    + unfold banner. cbn [app List.filter is_compile_failure].
      by rewrite !List.filter_app, Hquiet, Hpre.
    + destruct (compile_error env p) as [ex'|]; [| done].
      by injection Hres as ->.
  - match goal with
    | Hi : compile_paths env (include_paths k) = _ |- _ =>
        apply compile_paths_ok in Hi as [_ Hi];
        rewrite existsb_false_iff in Hi; by specialize (Hi _ He)
    end.
  - match goal with
    | Hx : compile_paths env (exclude_paths k) = _ |- _ =>
        apply compile_paths_ok in Hx as [_ Hx];
        rewrite existsb_false_iff in Hx; by specialize (Hx _ He)
    end.
  - exfalso.
    match goal with
    | H : ReCompile _ _ = scan_event env k ?r ?a ?b |- _ =>
        destruct (scan_event_kind env k r a b) as (_ & Hk & _);
        rewrite <- H in Hk
    end.
    done.
Qed.

Lemma refused_pattern_ends_run_witness :
  (main Sample.env Sample.ctx Sample.refused_first).1 !! 4%nat
  = Some (ReCompile "("
            (inl (re_error_exn
                    "missing ), unterminated subpattern at position 0")))
  ∧ length (main Sample.env Sample.ctx Sample.refused_first).1 = 5%nat
  ∧ patterns_of Sample.env (exclude_paths Sample.refused_first) = ["tests/"]
  ∧ outcome (main Sample.env Sample.ctx Sample.refused_first)
    = Uncaught (re_error_exn
                  "missing ), unterminated subpattern at position 0").
Proof.
  split; [reflexivity |]. split; [reflexivity |]. split; [reflexivity |].
  by destruct (refused_pattern_ends_run
                 Sample.env Sample.ctx Sample.refused_first 4 "(" _ eq_refl)
    as (_ & _ & ? & _).
Defined.

(** X12.  [re.compile] is called only for a request that passed all three
    checks, and only on a text that line 85 or 89 derived from a line of
    one of the two pattern files and that line 86 or 90 kept: never on an
    empty text, never on a comment. *)
Theorem only_kept_texts_are_compiled env ctx k i p res :
  (main env ctx k).1 !! i = Some (ReCompile p res) →
  (p ≠ "" ∧ Py.startswith "#" p = false)
  ∧ (∃ o f l, path_file o k = Some f ∧ l ∈ lines f
              ∧ p = Py.lstrip (Py.drop_last l))
  ∧ existsb is_err (main env ctx k).1 = false
  ∧ ∃ rules,
      configure_regexes_from_args env k (regexes env) = inr rules
      ∧ regex k && bool_decide (rules = ∅) = false.
Proof.
  intros He%list_elem_of_lookup_2. revert He.
  rewrite validation_error_reported. unfold validation_error.
  fold (detectors k) (sources k) (configured env k).
  destruct (main_run env ctx k) as (tr & s & -> & R). cbn [fst]. intros He.
  assert (∀ o tr' r',
            compile_paths env (path_file o k) = (tr', r') →
            ReCompile p res ∈ tr' →
            (p ≠ "" ∧ Py.startswith "#" p = false)
            ∧ ∃ o f l, path_file o k = Some f ∧ l ∈ lines f
                       ∧ p = Py.lstrip (Py.drop_last l)) as Hfile.
  { intros o tr' r' Hc Hin.
    destruct (compile_paths_call _ _ _ _ _ _ Hc Hin) as (Hp & Hk & _).
    split.
    - apply andb_true_iff in Hk as [H1 H2]. split.
      + by apply nonempty_true.
      + by apply negb_true_iff.
    - destruct (path_file o k) as [f|] eqn:Hf; [| by apply elem_of_nil in Hp].
      apply elem_of_pattern_set in Hp as (l & Hl & ->).
      by exists o, f, l. }
  destruct R; split_events He; try by_kind;
    repeat match goal with
      | H : detectors k = _ |- _ => rewrite H; clear H
      | H : sources k = _ |- _ => rewrite H; clear H
      | H : regex k && _ = false |- _ => rewrite H
      | H : configured env k = _ |- _ => rewrite H; clear H
      end;
    try match goal with
      | Hi : compile_paths env (include_paths k) = (?t, _), Hin : _ ∈ ?t |- _ =>
          destruct (Hfile IncludePaths _ _ Hi Hin) as [? ?]
      | Hx : compile_paths env (exclude_paths k) = (?t, _), Hin : _ ∈ ?t |- _ =>
          destruct (Hfile ExcludePaths _ _ Hx Hin) as [? ?]
      end;
    try (split; [done |]; split; [done |]; split; [done |]; by eexists).
  exfalso.
  match goal with
  | H : ReCompile _ _ = scan_event env k ?r ?a ?b |- _ =>
      destruct (scan_event_kind env k r a b) as (_ & Hk & _);
      rewrite <- H in Hk
  end.
  done.
Qed.

Lemma only_kept_texts_are_compiled_witness :
  (main Sample.env Sample.ctx Sample.filtered).1 !! 4%nat
  = Some (ReCompile "ba" (inr (Compiled "ba")))
  ∧ ∃ o f l, path_file o Sample.filtered = Some f ∧ l ∈ lines f
             ∧ "ba" = Py.lstrip (Py.drop_last l).
Proof.
  split; [reflexivity |].
  by destruct (only_kept_texts_are_compiled
                 Sample.env Sample.ctx Sample.filtered 4 "ba" _ eq_refl)
    as (_ & ? & _).
Defined.

(** ** Shape of the pattern lists *)

(** X13.  The list a scanner call receives for a pattern option is empty
    exactly when the option is absent or no line of its file is kept: a
    file of blank lines and comments filters nothing. *)
Theorem empty_pattern_list env ctx k i e o ps :
  (main env ctx k).1 !! i = Some e →
  path_patterns o e = Some ps →
  ps = [] ↔
  ∀ f l, path_file o k = Some f → l ∈ lines f →
         kept (Py.lstrip (Py.drop_last l)) = false.
Proof.
  intros He%list_elem_of_lookup_2 Hps.
  apply (path_patterns_inv _ _ _ _ _ _ He) in Hps as ->.
  destruct (path_file o k) as [f|]; cbn [patterns_of]; [| done].
  split.
  - intros Hnil f' l [= <-] Hl.
    destruct (kept (Py.lstrip (Py.drop_last l))) eqn:Hk; [| done].
    assert (Compiled (pattern_of_line l)
            ∈ Compiled <$> filter kept (pattern_set env f)) as Hin
      by (apply elem_of_compiled; by exists l).
    rewrite Hnil in Hin. by apply elem_of_nil in Hin.
  - intros Hall.
    destruct (Compiled <$> filter kept (pattern_set env f)) as [|c cs] eqn:Hcs;
      [done |].
    assert (c ∈ Compiled <$> filter kept (pattern_set env f)) as Hin
      by (rewrite Hcs; apply list_elem_of_here).
    apply elem_of_compiled in Hin as (l & Hl & _ & Hk).
    unfold pattern_of_line in Hk. by rewrite (Hall f l) in Hk.
Qed.

Lemma empty_pattern_list_witness :
  (∃ a r, (main Sample.env Sample.ctx Sample.only_comments).1 !! 3%nat
          = Some (FindStrings a r) ∧ fs_path_inclusions a = [])
  ∧ ∀ f l, path_file IncludePaths Sample.only_comments = Some f →
           l ∈ lines f → kept (Py.lstrip (Py.drop_last l)) = false.
Proof.
  split; [by eexists _, _ |].
  eapply (empty_pattern_list Sample.env Sample.ctx Sample.only_comments
            3 _ IncludePaths []); reflexivity.
Defined.

Lemma pattern_set_length env f :
  (length (pattern_set env f) ≤ length (lines f))%nat.
Proof.
  unfold pattern_set.
  rewrite <- (length_fmap (λ l, Py.lstrip (Py.drop_last l)) (lines f)).
  apply submseteq_length, NoDup_submseteq; [apply iterate_NoDup |].
  intros x. by rewrite iterate_elem.
Qed.

(** X14.  A scanner call never receives more patterns for an option than
    the option's file has lines, and none when the option is absent. *)
Theorem pattern_count_bounded env ctx k i e o ps :
  (main env ctx k).1 !! i = Some e →
  path_patterns o e = Some ps →
  (length ps ≤ match path_file o k with
               | Some f => length (lines f)
               | None => 0
               end)%nat.
Proof.
  intros He%list_elem_of_lookup_2 Hps.
  apply (path_patterns_inv _ _ _ _ _ _ He) in Hps as ->.
  destruct (path_file o k) as [f|]; cbn [patterns_of]; [| done].
  rewrite length_fmap. etrans; [apply length_filter |].
  apply pattern_set_length.
Qed.

Lemma pattern_count_bounded_witness :
  (main Sample.env Sample.ctx Sample.filtered).1 !! 5%nat
  = Some Sample.filtered_scan
  ∧ (length [Compiled "foo"; Compiled "ba"] ≤ 5)%nat.
Proof.
  split; [reflexivity |].
  apply (pattern_count_bounded Sample.env Sample.ctx Sample.filtered
           5 Sample.filtered_scan IncludePaths); reflexivity.
Defined.

Lemma drop_last_append s t : t ≠ "" → Py.drop_last (s +:+ t) = s +:+ Py.drop_last t.
Proof.
  intros Ht. induction s as [|c s IH]; [done |].
  change (String c s +:+ t) with (String c (s +:+ t)).
  change (String c s +:+ Py.drop_last t) with (String c (s +:+ Py.drop_last t)).
  rewrite <- IH. destruct (s +:+ t) eqn:Hst; [| done].
  destruct s; [by subst | done].
Qed.

Lemma lstrip_blank_prefix ws s : Py.lstrip ws = "" → Py.lstrip (ws +:+ s) = Py.lstrip s.
Proof.
  induction ws as [|c ws IH]; [done |].
  change (Py.lstrip (String c ws))
    with (if Py.isspace c then Py.lstrip ws else String c ws).
  change (Py.lstrip (String c ws +:+ s))
    with (if Py.isspace c then Py.lstrip (ws +:+ s) else String c (ws +:+ s)).
  destruct (Py.isspace c); [exact IH | done].
Qed.

(** X15.  Of a line made of leading blanks, a text that does not start
    with a blank, and one last character, lines 85 and 89 keep exactly the
    text: the leading blanks go, blanks at the end of the text stay. *)
Theorem leading_blanks_go_trailing_stay ws body c :
  Py.lstrip ws = "" →
  Py.lstrip body = body →
  Py.lstrip (Py.drop_last (ws +:+ body +:+ String c "")) = body.
Proof.
  intros Hws Hbody.
  rewrite drop_last_append by apply append_last_nonempty.
  rewrite drop_last_append_last.
  by rewrite lstrip_blank_prefix.
Qed.

Lemma leading_blanks_go_trailing_stay_witness :
  Py.lstrip "   " = "" ∧ Py.lstrip "src/  " = "src/  " ∧
  Py.lstrip (Py.drop_last ("   " +:+ "src/  " +:+ Sample.nl)) = "src/  ".
Proof.
  split; [reflexivity |]. split; [reflexivity |].
  apply (leading_blanks_go_trailing_stay "   " "src/  " Py.LF); reflexivity.
Defined.

(** ** The rules configuration *)

(** X16.  The rules configuration is called exactly when a detector is
    enabled and a source is given; then it is called once, before any
    pattern is compiled, and never for a request the first two checks
    refuse. *)
Theorem rules_configured_once env ctx k :
  List.filter is_configure (main env ctx k).1
  = if Py.any [entropy k; regex k]
       && Py.any [pre_commit k; Py.truthy_str (repo_path k);
                  Py.truthy_str (git_url k)]
    then [ConfigureRegexes (configure_regexes_from_args env k (regexes env))]
    else [].
Proof.
  fold (detectors k) (sources k) (configured env k).
  destruct (main_run env ctx k) as (tr & s & -> & R). cbn [fst].
  assert (∀ file t r, compile_paths env file = (t, r) →
                      List.filter is_configure t = []) as Hquiet.
  { intros file t r Hc. apply filter_recompile; [by intros [] |].
    by eapply compile_paths_events. }
  destruct R;
    repeat match goal with
      | H : detectors k = _ |- _ => rewrite H; clear H
      | H : sources k = _ |- _ => rewrite H; clear H
      | H : configured env k = _ |- _ => rewrite H; clear H
      end;
    try done; unfold banner;
    cbn [app List.filter is_configure andb];
    rewrite ?List.filter_app; cbn [List.filter];
    repeat match goal with
      | H : compile_paths env _ = (?t, _) |- _ =>
          rewrite (Hquiet _ _ _ H); clear H
      end;
    try done.
  match goal with
  | |- context [scan_event env k ?r ?a ?b] =>
      destruct (scan_event_kind env k r a b) as (_ & _ & _ & _ & ->)
  end.
  rewrite filter_none; [done |].
  intros e He.
  match goal with
  | HF : Finish _ _ _ _ _ |- _ =>
      destruct (finish_kind _ _ _ _ _ _ HF He); by destruct e
  end.
Qed.
